(** * piagent / DataQnA services: SQL gate, reply clean-up, row coercion,
      summariser, endpoint and conversation histories

    Shallow embedding of the two services of the repository:
    - [src/testingdirectway/piagent.py] (the direct-SQL variant): the SQL
      validation block of [ask_nlp_query], the markdown clean-up of
      [generate_sql_from_nlp], the cell coercion of [execute_bigquery_query],
      [generate_business_summary] and the [/ask] handler;
    - [src/cddpiagetdataqna/main.py] (variant 1): the conversation-history
      dictionary of [DataQnA], the conversion of protobuf values, the answer
      [ask_question] settles on, [reason_on_dataqna_output_with_gemini] and
      the conversation id of the [/ask] handler.

    Python [str] values are sequences of code points.  They are modelled here
    as sequences of [ascii], read as the code points U+0000..U+00FF (Latin-1);
    the character classes below are the ones CPython uses on that range. *)

From Stdlib Require Import String Ascii List ZArith NArith Bool Lia.
From Stdlib Require Import DecimalString.
From Stdlib Require Import Floats.SpecFloat.
From stdpp Require Import gmap strings.
Import ListNotations.

(* ===================================================================== *)
(** * Part I: the embedding                                               *)
(* ===================================================================== *)

(** ** Python strings on the Latin-1 range *)
Module PyStr.

(** A Python [str]. *)
Definition str := list ascii.

(** [str.isspace] on one code point, which is also the class [\s] of [re]:
    TAB..CR, FS..US, SPACE, NEL (U+0085) and NBSP (U+00A0). *)
Definition isspace (c : ascii) : bool :=
  let n := N_of_ascii c in
  (((9 <=? n) && (n <=? 13)) || ((28 <=? n) && (n <=? 32))
   || (n =? 133) || (n =? 160))%N.

(** [str.isalnum] on one code point. *)
Definition isalnum (c : ascii) : bool :=
  let n := N_of_ascii c in
  (((48 <=? n) && (n <=? 57)) || ((65 <=? n) && (n <=? 90))
   || ((97 <=? n) && (n <=? 122))
   || (n =? 170) || (n =? 178) || (n =? 179) || (n =? 181)
   || (n =? 185) || (n =? 186) || ((188 <=? n) && (n <=? 190))
   || ((192 <=? n) && (n <=? 214)) || ((216 <=? n) && (n <=? 246))
   || (248 <=? n))%N.

(** The class [\w] of [re] on [str] patterns: alphanumeric or underscore. *)
Definition isword (c : ascii) : bool :=
  isalnum c || (N_of_ascii c =? 95)%N.

(** Lower-casing of one code point; on Latin-1 the result stays in range. *)
Definition lower (c : ascii) : ascii :=
  let n := N_of_ascii c in
  if (((65 <=? n) && (n <=? 90))
      || ((192 <=? n) && (n <=? 222) && negb (n =? 215)))%N
  then ascii_of_N (n + 32) else c.

(** Upper-casing of one code point.  The micro sign, sharp s and y with
    diaeresis have upper-case forms outside Latin-1 and are left as they
    are; [upper] is applied only to text matched by [(SELECT|WITH)]. *)
Definition upper (c : ascii) : ascii :=
  let n := N_of_ascii c in
  if (((97 <=? n) && (n <=? 122))
      || ((224 <=? n) && (n <=? 254) && negb (n =? 247)))%N
  then ascii_of_N (n - 32) else c.

Definition str_upper (s : str) : str := map upper s.

(** [s.lstrip()], [s.rstrip()] and [s.strip()] with no argument. *)
Fixpoint lstrip (s : str) : str :=
  match s with
  | c :: t => if isspace c then lstrip t else s
  | [] => []
  end.

Definition rstrip (s : str) : str := rev (lstrip (rev s)).

Definition strip (s : str) : str := rstrip (lstrip s).

(** [s.startswith(p)] (exact, case-sensitive). *)
Fixpoint startswith (p s : str) : bool :=
  match p, s with
  | [], _ => true
  | a :: p', b :: s' => Ascii.eqb a b && startswith p' s'
  | _ :: _, [] => false
  end.

(** [a == b] on two [str]. *)
Fixpoint str_eqb (a b : str) : bool :=
  match a, b with
  | [], [] => true
  | x :: a', y :: b' => Ascii.eqb x y && str_eqb a' b'
  | _, _ => false
  end.

(** [s.endswith(p)]. *)
Definition endswith (p s : str) : bool := startswith (rev p) (rev s).

(** The slices [s[n:]] and [s[:-n]] for [n > 0]. *)
Definition slice_from (n : nat) (s : str) : str := skipn n s.
Definition slice_drop_last (n : nat) (s : str) : str :=
  firstn (length s - n) s.

(** Truthiness of a [str]: the empty string is falsy. *)
Definition truthy (s : str) : bool :=
  match s with [] => false | _ :: _ => true end.

(** A string literal as a [str]. *)
Definition py (s : string) : str := list_ascii_of_string s.

(** A newline, a double quote, and the four blanks that indent the lines of
    the prompts' triple-quoted f-strings. *)
Definition nl : str := ["010"%char].
Definition dquote : str := ["034"%char].
Definition indent : str := py "    ".

(** [str(n)] for a non-negative [int]. *)
Definition str_of_nat (n : nat) : str :=
  py (NilZero.string_of_uint (Nat.to_uint n)).

End PyStr.

(** ** The fragment of Python's [re] the services use *)
Module Re.
Import PyStr.

(** Patterns.  Literal characters are compiled under [re.IGNORECASE]. *)
Inductive regex : Type :=
| Bol                          (* ^ *)
| WordB                        (* \b *)
| Chr (c : ascii)              (* one literal character *)
| Space                        (* \s *)
| Star (r : regex)             (* r*, greedy *)
| Seq (r1 r2 : regex)          (* r1 r2 *)
| Alt (r1 r2 : regex)          (* r1|r2 *)
| Group (r : regex)            (* (r), the capturing group 1 *)
| Eps.                         (* the empty pattern *)

(** A position in the subject: the text already consumed (latest first),
    the text still ahead, and what group 1 holds. *)
Record mstate : Type := MState {
  seen : str;
  ahead : str;
  group1 : option str
}.

Definition isword_opt (c : option ascii) : bool :=
  match c with Some a => isword a | None => false end.

(** [\b]: exactly one of the two neighbours is a word character; the two
    ends of the subject count as non-word. *)
Definition at_boundary (st : mstate) : bool :=
  xorb (isword_opt (head (seen st))) (isword_opt (head (ahead st))).

(** One literal under IGNORECASE: the subject character is lower-cased and
    compared with the lower-cased pattern character. *)
Definition ci_eqb (pat subj : ascii) : bool :=
  Ascii.eqb (lower subj) (lower pat).

Definition advance (st : mstate) (c : ascii) (t : str) : mstate :=
  MState (c :: seen st) t (group1 st).

(** The text consumed between two positions of one run. *)
Definition consumed (from to : mstate) : str :=
  firstn (length (ahead from) - length (ahead to)) (ahead from).

(** The loop of a greedy star over [step]: one more round first, then
    stopping here; a round that consumes nothing is not repeated. *)
Fixpoint star_loop (step : mstate -> list mstate) (fuel : nat) (st : mstate)
    : list mstate :=
  match fuel with
  | O => [st]
  | S fuel' =>
      flat_map
        (fun st' =>
           if length (ahead st') <? length (ahead st)
           then star_loop step fuel' st' else [])
        (step st)
      ++ [st]
  end.

(** Backtracking matcher: every way [r] can match at [st], in the order in
    which Python's engine tries them. *)
Fixpoint rmatch (r : regex) (st : mstate) : list mstate :=
  match r with
  | Bol => match seen st with [] => [st] | _ :: _ => [] end
  | WordB => if at_boundary st then [st] else []
  | Chr p =>
      match ahead st with
      | c :: t => if ci_eqb p c then [advance st c t] else []
      | [] => []
      end
  | Space =>
      match ahead st with
      | c :: t => if isspace c then [advance st c t] else []
      | [] => []
      end
  | Star r' => star_loop (rmatch r') (S (length (ahead st))) st
  | Seq r1 r2 => flat_map (rmatch r2) (rmatch r1 st)
  | Alt r1 r2 => rmatch r1 st ++ rmatch r2 st
  | Group r' =>
      map (fun st' => MState (seen st') (ahead st') (Some (consumed st st')))
          (rmatch r' st)
  | Eps => [st]
  end.

(** A literal word: its characters in sequence. *)
Fixpoint lit (w : str) : regex :=
  match w with
  | [] => Eps
  | c :: w' => Seq (Chr c) (lit w')
  end.

(** [re.match(r, s, re.IGNORECASE)]: the first way [r] matches at the start
    of [s], if any. *)
Definition re_match (r : regex) (s : str) : option mstate :=
  head (rmatch r (MState [] s None)).

(** [re.search(r, s, re.IGNORECASE)]: the first match at the leftmost
    position that has one. *)
Fixpoint search_from (r : regex) (before s : str) : option mstate :=
  match rmatch r (MState before s None) with
  | m :: _ => Some m
  | [] =>
      match s with
      | c :: t => search_from r (c :: before) t
      | [] => None
      end
  end.

Definition re_search (r : regex) (s : str) : option mstate :=
  search_from r [] s.

(** Truthiness of a match object or [None]. *)
Definition matched (m : option mstate) : bool :=
  match m with Some _ => true | None => false end.

(** [m.group(1)] for a pattern whose group 1 takes part in every match. *)
Definition group_1 (m : mstate) : str :=
  match group1 m with Some g => g | None => [] end.

End Re.

(** ** piagent.py: the SQL validation block of [ask_nlp_query] *)
Module Validator.
Import PyStr Re.

(** [r"^\s*(SELECT|WITH)\b"] *)
Definition pat_select_or_with : regex :=
  Seq Bol
    (Seq (Star Space)
       (Seq (Group (Alt (lit (py "SELECT")) (lit (py "WITH")))) WordB)).

(** [r'\b' + keyword + r'\b'], which for [keyword = "SELECT"] is the
    pattern [r"\bSELECT\b"] of the WITH branch. *)
Definition pat_word (keyword : str) : regex :=
  Seq WordB (Seq (lit keyword) WordB).

Definition forbidden_keywords : list str :=
  map py ["INSERT"; "UPDATE"; "DELETE"; "DROP"; "CREATE";
          "ALTER"; "TRUNCATE"; "GRANT"; "REVOKE"; "MERGE"].

Definition msg_empty : str := py "LLM returned an empty SQL query.".
Definition msg_with_without_select : str :=
  py "SQL starts with WITH but does not contain a SELECT statement.".
Definition msg_must_start : str :=
  py "Generated SQL must start with SELECT or WITH.".
Definition msg_disallowed (keyword : str) : str :=
  py "Generated SQL contains a disallowed keyword: " ++ keyword
  ++ py ". Only SELECT queries are permitted.".
Definition msg_generic : str :=
  py "Generated SQL failed validation (structure or safety).".

(** The three locals the block computes. *)
Record verdict : Type := Verdict {
  is_valid_query_structure : bool;
  is_safe_for_readonly : bool;
  validation_error_message : str
}.

(** The [if match: ... else: ...] on the stripped text: the structure flag
    and the message set on the way. *)
Definition check_structure (normalized_sql_for_matching : str) : bool * str :=
  match re_match pat_select_or_with normalized_sql_for_matching with
  | Some m =>
      let first_keyword := str_upper (group_1 m) in
      if str_eqb first_keyword (py "WITH") then
        if matched (re_search (pat_word (py "SELECT"))
                      normalized_sql_for_matching)
        then (true, [])
        else (false, msg_with_without_select)
      else (true, [])
  | None => (false, msg_must_start)
  end.

(** The [for keyword in forbidden_keywords] loop with its [break]: the first
    keyword of the list that is found. *)
Fixpoint scan_forbidden (keywords : list str)
    (normalized_sql_for_matching : str) : option str :=
  match keywords with
  | [] => None
  | keyword :: keywords' =>
      if matched (re_search (pat_word keyword) normalized_sql_for_matching)
      then Some keyword
      else scan_forbidden keywords' normalized_sql_for_matching
  end.

(** Lines 537-579: the validation of [generated_sql], with the scan for
    forbidden keywords as [scan]. *)
Definition validate_with (scan : str -> option str) (generated_sql : str)
    : verdict :=
  if negb (truthy generated_sql) || negb (truthy (strip generated_sql)) then
    Verdict false true msg_empty
  else
    let normalized_sql_for_matching := strip generated_sql in
    let '(is_valid, message) := check_structure normalized_sql_for_matching in
    if is_valid then
      match scan normalized_sql_for_matching with
      | Some keyword => Verdict true false (msg_disallowed keyword)
      | None => Verdict true true message
      end
    else Verdict false true message.

Definition validate_sql (generated_sql : str) : verdict :=
  validate_with (scan_forbidden forbidden_keywords) generated_sql.

(** Line 581: [not is_valid_query_structure or not is_safe_for_readonly]. *)
Definition rejected (v : verdict) : bool :=
  negb (is_valid_query_structure v) || negb (is_safe_for_readonly v).

(** Lines 582-583: the message a rejection answers with. *)
Definition rejection_message (v : verdict) : str :=
  if truthy (validation_error_message v)
  then validation_error_message v else msg_generic.

End Validator.

(** ** piagent.py: exceptions and the services behind the handler *)
Module Services.
Import PyStr.

(** What the handlers read of a Python exception other than
    [HTTPException]. *)
Record pyexn : Type := PyExn {
  is_value_error : bool;          (* isinstance(e, ValueError) *)
  exn_str : str;                  (* str(e) *)
  exn_candidates : option str;    (* getattr(e, 'candidates', None), if truthy *)
  exn_parts : option str;         (* getattr(e, 'parts', None), if truthy *)
  exn_bq_detail : option str      (* e.errors[0]['message'] or the fallback
                                     text, if e.errors exists and is truthy *)
}.

(** What a function of the service may raise: an [HTTPException] of its
    own making, or an exception of a library. *)
Inductive raised : Type :=
| HTTPException (status_code : nat) (detail : str)
| Exc (e : pyexn).

(** The outcome of a call: a value, or an exception of type [E] on its way
    up.  Library calls raise [pyexn]; the functions of the service raise
    [raised]. *)
Inductive result (E A : Type) : Type :=
| Returns (a : A)
| Raises (e : E).
Arguments Returns {E A} a.
Arguments Raises {E A} e.

Definition bind {E A B : Type} (m : result E A) (k : A -> result E B)
    : result E B :=
  match m with
  | Returns a => k a
  | Raises e => Raises e
  end.

(** [try: body except Exception as e: handler(e)] *)
Definition try_except {E E' A : Type} (body : result E A)
    (handler : E -> result E' A) : result E' A :=
  match body with
  | Returns a => Returns a
  | Raises e => handler e
  end.

Notation "'let*' x ':=' m 'in' k" := (bind m (fun x => k))
  (at level 10, x name, m at level 100, k at level 200, only parsing).

(** A response of [model.generate_content], as the text extraction reads it:
    either [response.candidates[0].content.parts] is there and non-empty, and
    reading [parts[0].text] gives a text or raises; or the extraction falls
    back to [response.text], if the response has that attribute. *)
Inductive llm_response : Type :=
| WithParts (first_part_text : result pyexn str)
| WithoutParts (text_attribute : option (result pyexn str)).

(** A Python [float] is an IEEE 754 binary64 number. *)
Definition pyfloat := spec_float.

(** The plain values: [float], [int], [str], [bool] and [None]. *)
Inductive scalar : Type :=
| SNone
| SBool (b : bool)
| SInt (z : Z)
| SFloat (f : pyfloat)
| SStr (s : str).

(** An object of any other class, by the three things the executor asks of
    it. *)
Record pyobject : Type := PyObject {
  obj_isoformat : option str;     (* value.isoformat(), if it has the attribute *)
  obj_float : option pyfloat;     (* float(value); None: TypeError or ValueError *)
  obj_str : str                   (* str(value) *)
}.

(** A cell of a BigQuery result row. *)
Inductive pyvalue : Type :=
| Plain (v : scalar)
| Object (o : pyobject).

(** Lines 297-301 and 471-475: the text of a response. *)
Definition response_text (response : llm_response) : result pyexn str :=
  match response with
  | WithParts t => t
  | WithoutParts (Some t) => t
  | WithoutParts None => Returns []
  end.

(** A row as [row.items()] lists it, and a record the executor builds. *)
Definition row := list (str * pyvalue).
Definition record := list (str * scalar).

(** The world outside the process, as one request meets it. *)
Record services : Type := Services {
  vertex_ai_initialized : bool;
  bq_client_present : bool;                       (* bq_client is not None *)
  table_ref : str;                                (* BQ_PROJECT_ID.BQ_DATASET_ID.BQ_TABLE_ID *)
  schema_description : str;                       (* MASTER_LEDGER_US_SCHEMA_DESCRIPTION *)
  sql_generation_guidelines : str;                (* SQL_GENERATION_GUIDELINES *)
  summary_instructions : str;                     (* the fixed text that ends the summary prompt *)
  sql_model : option pyexn;                       (* GenerativeModel(MODEL_NAME); None: no exception *)
  sql_generate_content : str -> result pyexn llm_response;
  bq_query_result : str -> result pyexn (list row); (* bq_client.query(sql).result(timeout=120), iterated *)
  summary_model : option pyexn;
  summary_generate_content : str -> result pyexn llm_response;
  json_dumps : record -> str                      (* json.dumps on a record of plain values *)
}.

End Services.

(** ** piagent.py: [generate_sql_from_nlp] *)
Module SqlGen.
Import PyStr Services.

Definition fence_sql : str := py "```sql".
Definition fence : str := py "```".

(** Lines 303-312: the clean-up of the model's text. *)
Definition clean_generated_sql (text : str) : str :=
  let generated_sql := strip text in
  let generated_sql :=
    if startswith fence_sql generated_sql then slice_from 6 generated_sql
    else if startswith fence generated_sql then slice_from 3 generated_sql
    else generated_sql in
  let generated_sql :=
    if endswith fence generated_sql then slice_drop_last 3 generated_sql
    else generated_sql in
  strip generated_sql.

(** The handlers of lines 320-338. *)
Definition sql_error_detail (e : pyexn) : str :=
  if is_value_error e then
    py "LLM failed to generate valid SQL content: " ++ exn_str e
  else
    py "Error generating SQL from LLM: " ++ exn_str e
    ++ match exn_candidates e with
       | Some c => py " Candidates: " ++ c | None => [] end
    ++ match exn_parts e with
       | Some c => py " Parts: " ++ c | None => [] end.

(** Lines 272-282: the prompt. *)
Definition sql_prompt (svc : services)
    (table_schema_info nlp_question : str) : str :=
  nl ++ indent ++ sql_generation_guidelines svc ++ nl ++ nl
  ++ indent ++ py "Full Schema Details of `" ++ table_ref svc ++ py "`:" ++ nl
  ++ indent ++ table_schema_info ++ nl ++ nl
  ++ indent ++ py "Natural Language Question:" ++ nl
  ++ indent ++ nlp_question ++ nl ++ nl
  ++ indent ++ py "SQL Query:" ++ nl
  ++ indent.

Definition generate_sql_from_nlp (svc : services)
    (table_schema_info nlp_question : str) : result raised str :=
  if negb (vertex_ai_initialized svc) then
    Raises (HTTPException 503
              (py "Vertex AI service not initialized or unavailable."))
  else
    match sql_model svc with
    | Some model_init_err =>
        Raises (HTTPException 500
                  (py "Could not initialize LLM model for SQL generation: "
                   ++ exn_str model_init_err))
    | None =>
        let prompt_content :=
          sql_prompt svc table_schema_info nlp_question in
        try_except
          (let* response := sql_generate_content svc prompt_content in
           let* generated_sql := response_text response in
           Returns (clean_generated_sql generated_sql))
          (fun e => Raises (HTTPException 500 (sql_error_detail e)))
    end.

End SqlGen.

(** ** The classes of the cells BigQuery returns: [datetime] and [Decimal] *)
Module PyTypes.
Import PyStr Services.

Record date : Type := Date { year : nat; month : nat; day : nat }.

Record time : Type := TimeOfDay {
  hour : nat; minute : nat; second : nat; microsecond : nat;
  utcoffset : option Z            (* seconds east of UTC, if tz-aware *)
}.

(** A finite [decimal.Decimal]: [(-1)^sign * coefficient * 10^exponent]. *)
Record decimal : Type := Decimal {
  dec_sign : bool; dec_coefficient : N; dec_exponent : Z
}.

(** ["%0{width}d" % n] *)
Definition pad (width n : nat) : str :=
  let digits := str_of_nat n in
  repeat "0"%char (width - length digits) ++ digits.

(** [date.isoformat()]: YYYY-MM-DD. *)
Definition date_isoformat (d : date) : str :=
  pad 4 (year d) ++ py "-" ++ pad 2 (month d) ++ py "-" ++ pad 2 (day d).

(** The UTC offset as [isoformat] prints it: +HH:MM, and :SS if any. *)
Definition offset_isoformat (off : Z) : str :=
  let a := Z.to_nat (Z.abs off) in
  (if (off <? 0)%Z then py "-" else py "+")
  ++ pad 2 (a / 3600) ++ py ":" ++ pad 2 ((a mod 3600) / 60)
  ++ (if (a mod 60 =? 0)%nat then [] else py ":" ++ pad 2 (a mod 60)).

(** [time.isoformat()]: HH:MM:SS, .ffffff if any, and the offset if any. *)
Definition time_isoformat (t : time) : str :=
  pad 2 (hour t) ++ py ":" ++ pad 2 (minute t) ++ py ":" ++ pad 2 (second t)
  ++ (if (microsecond t =? 0)%nat then [] else py "." ++ pad 6 (microsecond t))
  ++ match utcoffset t with Some off => offset_isoformat off | None => [] end.

(** [datetime.isoformat(sep)]. *)
Definition datetime_isoformat (sep : str) (d : date) (t : time) : str :=
  date_isoformat d ++ sep ++ time_isoformat t.

(** [float(d)] for a [Decimal]: the binary64 number nearest to its value,
    ties to even. *)
Definition float_of_decimal (d : decimal) : pyfloat :=
  match dec_coefficient d with
  | N0 => S754_zero (dec_sign d)
  | Npos c =>
      if (0 <=? dec_exponent d)%Z then
        binary_round 53 1024 (dec_sign d)
          (c * Z.to_pos (10 ^ dec_exponent d))%positive 0
      else
        let '(m, e, l) :=
          SFdiv_core_binary 53 1024 (Zpos c) 0 (10 ^ (- dec_exponent d))%Z 0 in
        binary_round_aux 53 1024 (dec_sign d) m e l
  end.

(** [str(d)] for a [Decimal]: the scientific string of the decimal
    arithmetic specification. *)
Definition decimal_str (d : decimal) : str :=
  let digits := py (NilZero.string_of_uint (N.to_uint (dec_coefficient d))) in
  let n := Z.of_nat (length digits) in
  let leftdigits := (dec_exponent d + n)%Z in
  let dotplace :=
    if ((dec_exponent d <=? 0) && (-6 <? leftdigits))%Z then leftdigits else 1%Z in
  let body :=
    if (dotplace <=? 0)%Z then
      py "0." ++ repeat "0"%char (Z.to_nat (- dotplace)) ++ digits
    else if (n <=? dotplace)%Z then
      digits ++ repeat "0"%char (Z.to_nat (dotplace - n))
    else
      firstn (Z.to_nat dotplace) digits ++ py "."
      ++ skipn (Z.to_nat dotplace) digits in
  let e := (leftdigits - dotplace)%Z in
  let exp :=
    if (e =? 0)%Z then []
    else py "E" ++ (if (e <? 0)%Z then py "-" else py "+")
         ++ str_of_nat (Z.to_nat (Z.abs e)) in
  (if dec_sign d then py "-" else []) ++ body ++ exp.

(** The binary64 number [m * 2^e], for an [m] of at most 53 bits. *)
Definition dyadic (m e : Z) : pyfloat := binary_normalize 53 1024 m e false.

(** The four classes as the executor sees their instances. *)
Definition date_object (d : date) : pyobject :=
  PyObject (Some (date_isoformat d)) None (date_isoformat d).

Definition datetime_object (d : date) (t : time) : pyobject :=
  PyObject (Some (datetime_isoformat (py "T") d t)) None
           (datetime_isoformat (py " ") d t).

Definition time_object (t : time) : pyobject :=
  PyObject (Some (time_isoformat t)) None (time_isoformat t).

Definition decimal_object (d : decimal) : pyobject :=
  PyObject None (Some (float_of_decimal d)) (decimal_str d).

End PyTypes.

(** ** piagent.py: [execute_bigquery_query] *)
Module Executor.
Import PyStr Services.

(** [hasattr(value, 'isoformat')] and, if so, [value.isoformat()]. *)
Definition isoformat_attr (value : pyvalue) : option str :=
  match value with
  | Object o => obj_isoformat o
  | Plain _ => None
  end.

(** Lines 357-368: one cell of a record. *)
Definition coerce_cell (value : pyvalue) : scalar :=
  match isoformat_attr value with
  | Some iso => SStr iso
  | None =>
      match value with
      | Plain v => v
      | Object o =>
          match obj_float o with
          | Some f => SFloat f
          | None => SStr (obj_str o)
          end
      end
  end.

(** Lines 355-369: one record. *)
Definition coerce_row (r : row) : record :=
  map (fun kv => (fst kv, coerce_cell (snd kv))) r.

(** Lines 376-378: the message of a failed execution. *)
Definition bq_error_message (e : pyexn) : str :=
  py "Error executing BigQuery query: " ++ exn_str e
  ++ match exn_bq_detail e with
     | Some d => py "; Details: " ++ d
     | None => []
     end.

(** The function, with the list of the queries sent to BigQuery so far. *)
Definition execute_bigquery_query (svc : services) (sql_query : str)
    (sent : list str) : result raised (list record) * list str :=
  if negb (bq_client_present svc) then
    (Raises (HTTPException 503
               (py "BigQuery client not initialized or unavailable.")), sent)
  else if negb (truthy sql_query) then
    (Raises (HTTPException 400
               (py "No SQL query provided for execution.")), sent)
  else
    (try_except
       (let* results := bq_query_result svc sql_query in
        Returns (map coerce_row results))
       (fun e => Raises (HTTPException 500 (bq_error_message e))),
     sent ++ [sql_query]).

End Executor.

(** ** piagent.py: [generate_business_summary] *)
Module Summarizer.
Import PyStr Services.

(** [sep.join(xs)] *)
Fixpoint join (sep : str) (xs : list str) : str :=
  match xs with
  | [] => []
  | [x] => x
  | x :: xs' => x ++ sep ++ join sep xs'
  end.

(** Lines 414-416: the loop over [enumerate(rows_to_show)]. *)
Fixpoint row_lines (svc : services) (row_idx : nat) (rows : list record) : str :=
  match rows with
  | [] => []
  | row_data :: rows' =>
      py "Row " ++ str_of_nat (row_idx + 1) ++ py ": "
      ++ json_dumps svc row_data ++ nl
      ++ row_lines svc (S row_idx) rows'
  end.

(** Lines 405-421. *)
Definition context_data_str (svc : services) (query_results : list record)
    (max_rows_for_summary_context : nat) : str :=
  let num_total_rows := length query_results in
  if 0 <? num_total_rows then
    let rows_to_show := firstn max_rows_for_summary_context query_results in
    match rows_to_show with
    | first_row :: _ =>
        py "Column Names: " ++ join (py ", ") (map fst first_row) ++ nl
        ++ py "Sample Data (first " ++ str_of_nat (length rows_to_show)
        ++ py " of " ++ str_of_nat num_total_rows ++ py " total rows):" ++ nl
        ++ row_lines svc 0 rows_to_show
    | [] => []
    end
    ++ (if max_rows_for_summary_context <? num_total_rows
        then py "... and "
             ++ str_of_nat (num_total_rows - max_rows_for_summary_context)
             ++ py " more rows." ++ nl
        else [])
    ++ py "Total rows retrieved: " ++ str_of_nat num_total_rows ++ nl
  else py "The query returned no data (0 rows)." ++ nl.

(** Lines 423-457: the prompt; [summary_instructions] is its fixed text from
    the instructions on. *)
Definition summary_prompt (svc : services) (nlp_question sql_query : str)
    (context : str) : str :=
  nl ++ indent
  ++ py "You are a business analyst. Your task is to provide a concise, insightful summary based on the results of a database query that was run to answer a user's question."
  ++ nl ++ nl
  ++ indent ++ py "Original Natural Language Question from User:" ++ nl
  ++ indent ++ dquote ++ nlp_question ++ dquote ++ nl ++ nl
  ++ indent ++ py "The SQL Query that was executed to get the data:" ++ nl
  ++ indent ++ py "```sql" ++ nl
  ++ indent ++ sql_query ++ nl
  ++ indent ++ py "```" ++ nl ++ nl
  ++ indent ++ py "Data Results from the Query:" ++ nl
  ++ indent ++ context
  ++ summary_instructions svc.

(** Lines 483-491: the text the last handler returns. *)
Definition summary_error_detail (num_total_rows : nat) (e : pyexn) : str :=
  py "Successfully retrieved " ++ str_of_nat num_total_rows
  ++ py " records. An error occurred while generating a business summary: "
  ++ exn_str e
  ++ match exn_candidates e with
     | Some c => py " Candidates: " ++ c | None => [] end
  ++ match exn_parts e with
     | Some c => py " Parts: " ++ c | None => [] end.

(** [query_results] is [None] or a list of records. *)
Definition generate_business_summary (svc : services)
    (nlp_question sql_query : str) (query_results : option (list record))
    (max_rows_for_summary_context : nat) : result raised str :=
  if negb (vertex_ai_initialized svc) then
    Returns (py "Retrieved "
             ++ str_of_nat (match query_results with
                            | Some (r :: rs) => length (r :: rs)
                            | _ => 0
                            end)
             ++ py " records. Summary generation failed: Vertex AI unavailable.")
  else
    match query_results with
    | None =>
        Returns (py "Internal error: Query results were unexpectedly None before summarization.")
    | Some query_results =>
        match summary_model svc with
        | Some model_init_err =>
            Returns (py "Retrieved " ++ str_of_nat (length query_results)
                     ++ py " records. Error initializing summary model: "
                     ++ exn_str model_init_err)
        | None =>
            let num_total_rows := length query_results in
            let prompt :=
              summary_prompt svc nlp_question sql_query
                (context_data_str svc query_results
                   max_rows_for_summary_context) in
            try_except
              (let* response := summary_generate_content svc prompt in
               let* summary_text := response_text response in
               let summary_text := strip summary_text in
               Returns (if truthy summary_text then summary_text
                        else py "Retrieved " ++ str_of_nat num_total_rows
                             ++ py " records, but could not generate a specific summary."))
              (fun e => Returns (summary_error_detail num_total_rows e))
        end
    end.

(** The default of the parameter, which the handler relies on. *)
Definition default_max_rows : nat := 10.

End Summarizer.

(** ** piagent.py: the [/ask] handler *)
Module Endpoint.
Import PyStr Services Validator SqlGen Executor Summarizer.

Record DataTableContent : Type := MkDataTableContent {
  data : list record;
  columns : list str
}.

Record QueryResponse : Type := MkQueryResponse {
  query : str;
  sql_query : option str;
  dataframe_content : option DataTableContent;
  answer : str
}.

(** What the client gets: a 200 with a body, or the error FastAPI makes of
    an [HTTPException] that leaves the handler. *)
Inductive http_response : Type :=
| Http200 (body : QueryResponse)
| HttpError (status_code : nat) (detail : str).

(** Lines 240-245, for the three configured names the handler passes. *)
Definition get_bigquery_table_schema (svc : services) : result raised str :=
  if negb (bq_client_present svc) then
    Raises (HTTPException 503
              (py "BigQuery client not initialized or unavailable."))
  else Returns (schema_description svc).

(** [DataTableContent(data=query_results, columns=...)] *)
Definition table_of (query_results : list record) : DataTableContent :=
  MkDataTableContent query_results
    match query_results with
    | first_row :: _ => map fst first_row
    | [] => []
    end.

(** The two [except] clauses of lines 614-642, given the locals as they
    stand when the exception arrives. *)
Definition on_exception (nlp_question : str) (generated_sql : option str)
    (query_results : option (list record))
    (df_content_for_response : option DataTableContent)
    (e : raised) : QueryResponse :=
  match e with
  | HTTPException _ detail =>
      MkQueryResponse nlp_question generated_sql df_content_for_response detail
  | Exc e =>
      MkQueryResponse nlp_question generated_sql
        match query_results, df_content_for_response with
        | Some rs, None => Some (table_of rs)
        | _, df => df
        end
        (py "An unexpected server error occurred: " ++ exn_str e ++ py ".")
  end.

(** [ask_nlp_query]: the response, and the queries sent to BigQuery. *)
Definition ask_nlp_query (svc : services) (nlp_question : str)
    (sent : list str) : http_response * list str :=
  if negb (vertex_ai_initialized svc) then
    (HttpError 503 (py "Vertex AI service failed to initialize on startup."),
     sent)
  else if negb (bq_client_present svc) then
    (HttpError 503 (py "BigQuery client failed to initialize on startup."),
     sent)
  else
    match get_bigquery_table_schema svc with
    | Raises e => (Http200 (on_exception nlp_question None None None e), sent)
    | Returns table_schema =>
    match generate_sql_from_nlp svc table_schema nlp_question with
    | Raises e => (Http200 (on_exception nlp_question None None None e), sent)
    | Returns generated_sql =>
        let v := validate_sql generated_sql in
        if rejected v then
          (Http200 (MkQueryResponse nlp_question (Some generated_sql) None
                      (rejection_message v)),
           sent)
        else
          match execute_bigquery_query svc generated_sql sent with
          | (Raises e, sent') =>
              (Http200 (on_exception nlp_question (Some generated_sql)
                          None None e),
               sent')
          | (Returns query_results, sent') =>
              let df_content_for_response := table_of query_results in
              match generate_business_summary svc nlp_question generated_sql
                      (Some query_results) default_max_rows with
              | Returns business_summary =>
                  (Http200 (MkQueryResponse nlp_question (Some generated_sql)
                              (Some df_content_for_response) business_summary),
                   sent')
              | Raises e =>
                  (Http200 (on_exception nlp_question (Some generated_sql)
                              (Some query_results)
                              (Some df_content_for_response) e),
                   sent')
              end
          end
    end
    end.

End Endpoint.

(** ** main.py: the conversation histories of [DataQnA] *)
Module DataQnA.
Import PyStr Services.

(** A [dataqna_v1alpha1.Message]: the user's, or one the service streams
    back (of which only the text parts are kept here). *)
Inductive message : Type :=
| UserMessage (text : str)
| SystemMessage (text_parts : list str).

(** One item of the reply stream: the message, and whether the body of the
    loop raises while handling it. *)
Record stream_item : Type := StreamItem {
  container : message;
  handling : option pyexn
}.

(** How the stream ends: exhausted, or the iterator raises. *)
Inductive stream_end : Type :=
| Exhausted
| Broken (e : pyexn).

(** The DataQnA service as one call meets it. *)
Record dataqna_api : Type := DataQnAApi {
  (* the construction of the AskQuestionRequest: None when it returns *)
  build_request : list message -> option pyexn;
  (* self.client.ask_question(request=request) and the stream it returns *)
  call : list message -> result pyexn (list stream_item * stream_end)
}.

(** Truthiness of an [Optional[str]]. *)
Definition id_truthy (conversation_id : option str) : option str :=
  match conversation_id with
  | Some (c :: cs) => Some (c :: cs)
  | _ => None
  end.

(** Lines 392-394. *)
Definition reset_conversation (conversation_histories : gmap str (list message))
    (conversation_id : option str) : gmap str (list message) :=
  match id_truthy conversation_id with
  | Some c =>
      match conversation_histories !! c with
      | Some _ => delete c conversation_histories
      | None => conversation_histories
      end
  | None => conversation_histories
  end.

(** Lines 448-456: the loop, which appends each message before handling
    it. *)
Fixpoint consume (items : list stream_item) (replies_for_history : list message)
    : result pyexn (list message) :=
  match items with
  | [] => Returns replies_for_history
  | msg_container :: items' =>
      let replies_for_history := replies_for_history ++ [container msg_container] in
      match handling msg_container with
      | Some e => Raises e
      | None => consume items' replies_for_history
      end
  end.

(** How a call of [ask_question] ends. *)
Inductive ask_outcome : Type :=
| Answered (replies : list message)      (* the dict of lines 538-544 *)
| RequestError (e : pyexn)               (* the dict of lines 431-435 *)
| StreamError (e : pyexn)                (* the dict of lines 500-504 *)
| Propagated (e : pyexn).                (* an exception leaves the method *)

(** Lines 398-544, as far as the histories go. *)
Definition ask_question (api : dataqna_api)
    (conversation_histories : gmap str (list message))
    (question_text : str) (conversation_id : option str)
    : ask_outcome * gmap str (list message) :=
  let current_history :=
    match id_truthy conversation_id with
    | Some c => default [] (conversation_histories !! c)
    | None => []
    end in
  let input_message := UserMessage question_text in
  let messages_to_send := current_history ++ [input_message] in
  match build_request api messages_to_send with
  | Some ve_req =>
      if is_value_error ve_req
      then (RequestError ve_req, conversation_histories)
      else (Propagated ve_req, conversation_histories)
  | None =>
      let streamed :=
        let* stream := call api messages_to_send in
        let* replies_for_history := consume (fst stream) [] in
        match snd stream with
        | Exhausted => Returns replies_for_history
        | Broken e => Raises e
        end in
      match streamed with
      | Returns replies_for_history =>
          (Answered replies_for_history,
           match id_truthy conversation_id with
           | Some c =>
               <[c := current_history ++ [input_message] ++ replies_for_history]>
                 conversation_histories
           | None => conversation_histories
           end)
      | Raises e => (StreamError e, conversation_histories)
      end
  end.

End DataQnA.

(* ===================================================================== *)
(** * Part II: the vocabulary of the specification                        *)
(* ===================================================================== *)

(** The specification speaks of strings that are blank, that begin with a
    keyword, and that contain a keyword "as a whole word".  These are its
    words as executable predicates, defined without the matcher. *)
Module Words.
Import PyStr Re.

(** Empty or whitespace-only. *)
Definition blank (s : str) : bool := forallb isspace s.

(** [w] is a prefix of [s], letter case apart. *)
Fixpoint ci_prefix (w s : str) : bool :=
  match w, s with
  | [], _ => true
  | p :: w', c :: s' => ci_eqb p c && ci_prefix w' s'
  | _ :: _, [] => false
  end.

(** After optional leading whitespace, [s] begins with the letters of [w],
    case-insensitively. *)
Definition begins_with (w s : str) : bool := ci_prefix w (lstrip s).

(** The character of [s] at index [n] is a word character. *)
Definition word_char_at (s : str) (n : nat) : bool :=
  isword_opt (nth_error s n).

(** [s] begins with [w] as a whole word: the letters of [w], and then no
    letter, digit or underscore. *)
Definition begins_with_word (w s : str) : bool :=
  begins_with w s && negb (word_char_at (lstrip s) (length w)).

(** [w] stands at the head of [s] as a whole word, when [prev] is the
    character before [s]. *)
Definition word_here (w : str) (prev : option ascii) (s : str) : bool :=
  negb (isword_opt prev) && ci_prefix w s && negb (word_char_at s (length w)).

(** [w] occurs somewhere in [s] as a whole word, case-insensitively. *)
Fixpoint find_word (w : str) (prev : option ascii) (s : str) : bool :=
  word_here w prev s
  || match s with
     | [] => false
     | c :: t => find_word w (Some c) t
     end.

Definition contains_word (w s : str) : bool := find_word w None s.

(** The same letters, letter case apart. *)
Definition same_letters (u w : str) : Prop := map lower u = map lower w.

(** The whitespace [s] begins with, and the whitespace it ends with. *)
Fixpoint leading_spaces (s : str) : str :=
  match s with
  | c :: t => if isspace c then c :: leading_spaces t else []
  | [] => []
  end.

Definition trailing_spaces (s : str) : str := rev (leading_spaces (rev s)).

(** A keyword: not empty, and made of word characters only. *)
Definition keyword (w : str) : bool :=
  truthy w && forallb isword w.

(** The structure check in words: SELECT as the first word, or WITH as the
    first word and SELECT as a word somewhere. *)
Definition structure_ok (s : str) : bool :=
  begins_with_word (py "SELECT") s
  || (begins_with_word (py "WITH") s && contains_word (py "SELECT") s).

End Words.

(** Concrete services, for the scenarios the properties are tried on. *)
Module Scenario.
Import PyStr Services.

(** Both clients up; the model answers every SQL prompt with [sql_reply]
    and every summary prompt with [summary_reply]; every query returns
    [rows]. *)
Definition services_up (sql_reply summary_reply : str) (rows : list row)
    : services :=
  {| vertex_ai_initialized := true;
     bq_client_present := true;
     table_ref := py "p.d.t";
     schema_description := py "Table: t";
     sql_generation_guidelines := py "Write one query.";
     summary_instructions := py "Business Summary:";
     sql_model := None;
     sql_generate_content := fun _ => Returns (WithParts (Returns sql_reply));
     bq_query_result := fun _ => Returns rows;
     summary_model := None;
     summary_generate_content :=
       fun _ => Returns (WithParts (Returns summary_reply));
     json_dumps := fun _ => py "{}" |}.

(** The same with Vertex AI not initialised. *)
Definition services_without_vertex (rows : list row) : services :=
  {| vertex_ai_initialized := false;
     bq_client_present := true;
     table_ref := py "p.d.t";
     schema_description := py "Table: t";
     sql_generation_guidelines := py "Write one query.";
     summary_instructions := py "Business Summary:";
     sql_model := None;
     sql_generate_content := fun _ => Returns (WithoutParts None);
     bq_query_result := fun _ => Returns rows;
     summary_model := None;
     summary_generate_content := fun _ => Returns (WithoutParts None);
     json_dumps := fun _ => py "{}" |}.

(** A DataQnA service that accepts every request and streams [items],
    ending as [ending] says. *)
Definition api_streaming (items : list DataQnA.stream_item)
    (ending : DataQnA.stream_end) : DataQnA.dataqna_api :=
  {| DataQnA.build_request := fun _ => None;
     DataQnA.call := fun _ => Returns (items, ending) |}.

End Scenario.

(* ===================================================================== *)
(** * Part II, continued: more of main.py, and the error paths            *)
(* ===================================================================== *)

(** Services that fail, for the scenarios of the error paths. *)
Module Faults.
Import PyStr Services.

(** A library exception with the text [text] and nothing else to read. *)
Definition failure (text : str) : pyexn :=
  {| is_value_error := false; exn_str := text; exn_candidates := None;
     exn_parts := None; exn_bq_detail := None |}.

(** Both clients up; the three calls behave as given, whatever the prompt
    or the query. *)
Definition services_with (sql_call : result pyexn llm_response)
    (bq_call : result pyexn (list row))
    (summary_call : result pyexn llm_response) : services :=
  {| vertex_ai_initialized := true;
     bq_client_present := true;
     table_ref := py "p.d.t";
     schema_description := py "Table: t";
     sql_generation_guidelines := py "Write one query.";
     summary_instructions := py "Business Summary:";
     sql_model := None;
     sql_generate_content := fun _ => sql_call;
     bq_query_result := fun _ => bq_call;
     summary_model := None;
     summary_generate_content := fun _ => summary_call;
     json_dumps := fun _ => py "{}" |}.

(** The end-to-end scenario: the generator proposes a sum, BigQuery returns
    one row, the summariser a fixed text. *)
Definition sum_sql : str := py "SELECT SUM(product_sales) FROM t".

Definition sum_rows : list row :=
  [[(py "total", Plain (SFloat (PyTypes.dyadic 1000 0)))]].

Definition sum_services : services :=
  services_with (Returns (WithParts (Returns sum_sql))) (Returns sum_rows)
    (Returns (WithParts (Returns (py "Sales were 1000.")))).

End Faults.

(** ** main.py: [DataQnA._convert_proto_struct_to_dict] *)
Module ProtoStruct.
Import PyStr Services.

(** What the conversion returns: a plain value, a list or a dict (the items
    in the order of insertion). *)
#[warnings="-register-all"]
Inductive pyjson : Type :=
| JScalar (v : scalar)
| JList (elements : list pyjson)
| JDict (items : list (str * pyjson)).

(** [value.WhichOneof('kind')] of a [google.protobuf.Value], with the field
    it names. *)
Inductive value_kind (W : Type) : Type :=
| struct_value (s : W)
| list_value (l : W)
| string_value (s : str)
| number_value (x : pyfloat)
| bool_value (b : bool)
| null_value.
Arguments struct_value {W} s.
Arguments list_value {W} l.
Arguments string_value {W} s.
Arguments number_value {W} x.
Arguments bool_value {W} b.
Arguments null_value {W}.

(** A value as the conversion meets it, by the guard of lines 301-326 that
    holds of it.  [items] and [fields] are those of a mapping: the keys are
    distinct. *)
#[warnings="-register-all"]
Inductive wire : Type :=
| MapComposite (items : list (str * wire))
| RepeatedComposite (elements : list wire)
| Scalar (v : scalar)                   (* int, float, str, bool or None *)
| Struct (fields : list (str * wire))   (* google.protobuf.Struct *)
| ListValue (values : list wire)        (* google.protobuf.ListValue *)
| Value (kind : option (value_kind wire)) (text : str)
                                        (* google.protobuf.Value *)
| WellKnown (text : str)                (* another google.protobuf message *)
| Message (to_dict : result pyexn pyjson) (text : str)
                                        (* another message; MessageToDict *)
| Opaque (text : str).                  (* anything else, by its str() *)

(** Lines 300-331. *)
Fixpoint _convert_proto_struct_to_dict (value : wire) : pyjson :=
  match value with
  | MapComposite items =>
      JDict (map (fun kv => (fst kv, _convert_proto_struct_to_dict (snd kv)))
               items)
  | RepeatedComposite elements =>
      JList (map _convert_proto_struct_to_dict elements)
  | Scalar v => JScalar v
  | Struct fields =>
      JDict (map (fun kv => (fst kv, _convert_proto_struct_to_dict (snd kv)))
               fields)
  | ListValue values => JList (map _convert_proto_struct_to_dict values)
  | Value kind text =>
      match kind with
      | Some (struct_value s) => _convert_proto_struct_to_dict s
      | Some (list_value l) => _convert_proto_struct_to_dict l
      | Some (string_value s) => JScalar (SStr s)
      | Some (number_value x) => JScalar (SFloat x)
      | Some (bool_value b) => JScalar (SBool b)
      | Some null_value => JScalar SNone
      | None => JScalar (SStr text)
      end
  | WellKnown text => JScalar (SStr text)
  | Message to_dict text =>
      match to_dict with
      | Returns d => d
      | Raises _ => JScalar (SStr text)
      end
  | Opaque text => JScalar (SStr text)
  end.

(** Lines 462-465: the chart specification is kept if the conversion gives
    a dict. *)
Definition converted_spec (vega_config : wire)
    : option (list (str * pyjson)) :=
  match _convert_proto_struct_to_dict vega_config with
  | JDict items => Some items
  | _ => None
  end.

End ProtoStruct.

(** ** main.py: the answer [DataQnA.ask_question] settles on *)
Module Answer.
Import PyStr Services ProtoStruct.

(** Truthiness of an [Optional[Dict]] and of an [Optional[str]]. *)
Definition dict_truthy {A : Type} (d : option (list A)) : bool :=
  match d with
  | Some (_ :: _) => true
  | _ => false
  end.

(** Lines 517-526, given the text parts the loop has collected and what it
    has stored of a chart, a table and a query. *)
Definition final_text_reply (accumulated_final_text_parts : list str)
    (last_processed_chart_spec : option (list (str * pyjson)))
    (last_processed_dataframe_is_not_none : bool)
    (current_sql_query_from_data_message : option str) : str :=
  let final_text_reply := strip (concat accumulated_final_text_parts) in
  if negb (truthy final_text_reply) then
    if dict_truthy last_processed_chart_spec then
      py "[DataQnA provided a chart. No additional text summary.]"
    else if last_processed_dataframe_is_not_none then
      py "[DataQnA provided tabular data. No additional text summary.]"
    else if dict_truthy current_sql_query_from_data_message then
      py "[DataQnA generated SQL. No specific text summary.]"
    else
      py "[DataQnA provided no specific text, data, or chart output.]"
  else final_text_reply.

End Answer.

(** ** main.py: [reason_on_dataqna_output_with_gemini] *)
Module Reasoning.
Import PyStr Services.

(** The [dataframe_content] dict the function is given: its "data" and its
    "columns", if it has these keys. *)
Record df_content : Type := DfContent {
  df_data : option (list row);
  df_columns : option (list str)
}.

(** Vertex AI and [json.dumps] as one call of the function meets them. *)
Record reasoning_services : Type := ReasoningServices {
  vertex_ai_initialized : bool;
  reasoning_model : option pyexn;     (* GenerativeModel(REASONING_MODEL_NAME);
                                         None: no exception *)
  generate_content_text : str -> result pyexn str;
                                      (* model.generate_content(prompt).text *)
  json_dumps : row -> result pyexn str;
  instructions : str                  (* the fixed text that ends the prompt *)
}.

(** Lines 596-598: the loop over [enumerate(rows_to_show)]. *)
Fixpoint row_lines (svc : reasoning_services) (row_idx : nat)
    (rows : list row) : result pyexn str :=
  match rows with
  | [] => Returns []
  | r :: rows' =>
      let* dumped := json_dumps svc r in
      let* rest := row_lines svc (S row_idx) rows' in
      Returns (py "Row " ++ str_of_nat (row_idx + 1) ++ py ": "
               ++ dumped ++ nl ++ rest)
  end.

Definition no_table : str :=
  py "No tabular data was returned by DataQnA or data format was unexpected."
  ++ nl.

(** Lines 576-605. *)
Definition context_data_str (svc : reasoning_services)
    (dataqna_results_df_content : option df_content)
    (max_rows_for_summary_context : nat) : result pyexn str :=
  match dataqna_results_df_content with
  | Some content =>
      match df_data content with
      | Some (r :: rs) =>
          let query_results := r :: rs in
          let column_names := default [] (df_columns content) in
          let num_total_rows := length query_results in
          if 0 <? num_total_rows then
            let rows_to_show :=
              firstn max_rows_for_summary_context query_results in
            let* shown :=
              match rows_to_show with
              | first_row :: _ =>
                  let names :=
                    match column_names with
                    | _ :: _ =>
                        py "Column Names: "
                        ++ Summarizer.join (py ", ") column_names ++ nl
                    | [] =>
                        match map fst first_row with
                        | k :: ks =>
                            py "Column Names (inferred): "
                            ++ Summarizer.join (py ", ") (k :: ks) ++ nl
                        | [] => []
                        end
                    end in
                  let* lines := row_lines svc 0 rows_to_show in
                  Returns (names ++ py "Sample Data (first "
                           ++ str_of_nat (length rows_to_show) ++ py " of "
                           ++ str_of_nat num_total_rows
                           ++ py " total rows):" ++ nl ++ lines)
              | [] => Returns []
              end in
            Returns
              (shown
               ++ (if max_rows_for_summary_context <? num_total_rows
                   then py "... and "
                        ++ str_of_nat
                             (num_total_rows - max_rows_for_summary_context)
                        ++ py " more rows." ++ nl
                   else [])
               ++ py "Total rows retrieved by DataQnA: "
               ++ str_of_nat num_total_rows ++ nl)
          else Returns (py "The DataQnA query returned no data (0 rows)." ++ nl)
      | _ => Returns no_table
      end
  | None => Returns no_table
  end.

(** [dataqna_sql_query or "N/A"] *)
Definition sql_or_na (dataqna_sql_query : option str) : str :=
  match dataqna_sql_query with
  | Some (c :: cs) => c :: cs
  | _ => py "N/A"
  end.

(** Lines 607-638: the prompt; [instructions] is its fixed text after the
    data. *)
Definition summary_prompt (svc : reasoning_services) (nlp_question : str)
    (dataqna_sql_query : option str) (dataqna_initial_answer : str)
    (context : str) : str :=
  nl ++ indent
  ++ py "You are a secondary business analyst. You have received information from a primary data retrieval service (DataQnA)."
  ++ nl ++ indent
  ++ py "Your task is to provide a refined, insightful summary based on all the information provided, primarily focusing on the data itself."
  ++ nl ++ nl
  ++ indent ++ py "Original Natural Language Question from User:" ++ nl
  ++ indent ++ dquote ++ nlp_question ++ dquote ++ nl ++ nl
  ++ indent
  ++ py "The SQL Query executed by the primary service (DataQnA), if available:"
  ++ nl
  ++ indent ++ py "```sql" ++ nl
  ++ indent ++ sql_or_na dataqna_sql_query ++ nl
  ++ indent ++ py "```" ++ nl ++ nl
  ++ indent
  ++ py "Initial Textual Answer/Interpretation from the primary service (DataQnA):"
  ++ nl
  ++ indent ++ dquote ++ dataqna_initial_answer ++ dquote ++ nl ++ nl
  ++ indent ++ py "Data Results from the primary service's Query:" ++ nl
  ++ indent ++ context
  ++ instructions svc.

(** The initial answer between single quotes, as the fallback texts cite
    it. *)
Definition quoted (dataqna_initial_answer : str) : str :=
  py "'" ++ dataqna_initial_answer ++ py "'".

(** Lines 552-660.  The default of [max_rows_for_summary_context] is 10. *)
Definition reason_on_dataqna_output_with_gemini (svc : reasoning_services)
    (nlp_question : str) (dataqna_sql_query : option str)
    (dataqna_results_df_content : option df_content)
    (dataqna_initial_answer : str) (max_rows_for_summary_context : nat)
    : result pyexn str :=
  if negb (vertex_ai_initialized svc) then
    Returns (py "DataQnA initial answer: " ++ quoted dataqna_initial_answer
             ++ py ". Could not perform secondary reasoning: Vertex AI unavailable.")
  else
    match reasoning_model svc with
    | Some model_init_err =>
        Returns (py "DataQnA initial answer: "
                 ++ quoted dataqna_initial_answer
                 ++ py ". Error initializing secondary reasoning model: "
                 ++ exn_str model_init_err)
    | None =>
        let* context :=
          context_data_str svc dataqna_results_df_content
            max_rows_for_summary_context in
        let summary_prompt :=
          summary_prompt svc nlp_question dataqna_sql_query
            dataqna_initial_answer context in
        try_except
          (let* text := generate_content_text svc summary_prompt in
           let summary_text := strip text in
           Returns (if truthy summary_text then summary_text
                    else py "DataQnA Initial: "
                         ++ quoted dataqna_initial_answer
                         ++ py ". Secondary reasoning could not generate a specific summary."))
          (fun e =>
             Returns (py "DataQnA Initial: " ++ quoted dataqna_initial_answer
                      ++ py ". An error occurred during secondary reasoning: "
                      ++ exn_str e))
    end.

End Reasoning.

(** ** main.py: the [/ask] handler and the conversation it uses *)
Module Agent.
Import PyStr Services.

Record QuestionRequest : Type := MkQuestionRequest {
  question : str;
  conversation_id : option str;
  debug_mode : bool;
  reset_conversation : bool;
  enable_secondary_reasoning : bool
}.

(** Line 1109: [request_payload.conversation_id or str(uuid.uuid4())], with
    the identifier [uuid4] the call would draw. *)
Definition current_conv_id (request_payload : QuestionRequest) (uuid4 : str)
    : str :=
  match DataQnA.id_truthy (conversation_id request_payload) with
  | Some c => c
  | None => uuid4
  end.

(** Lines 1107-1141, as far as the conversation goes: the id every response
    of the request carries, how the call of [ask_question] ends (None: there
    is no DataQnA instance, and the response is a 503), and the histories
    after the request. *)
Definition ask_data_agent (data_qna_instance : option DataQnA.dataqna_api)
    (conversation_histories : gmap str (list DataQnA.message))
    (request_payload : QuestionRequest) (uuid4 : str)
    : str * option DataQnA.ask_outcome * gmap str (list DataQnA.message) :=
  let current_conv_id := current_conv_id request_payload uuid4 in
  match data_qna_instance with
  | None => (current_conv_id, None, conversation_histories)
  | Some api =>
      let conversation_histories :=
        if reset_conversation request_payload
           && bool_decide
                (DataQnA.id_truthy (conversation_id request_payload) <> None)
        then DataQnA.reset_conversation conversation_histories
               (Some current_conv_id)
        else conversation_histories in
      let '(outcome, conversation_histories) :=
        DataQnA.ask_question api conversation_histories
          (question request_payload) (Some current_conv_id) in
      (current_conv_id, Some outcome, conversation_histories)
  end.

End Agent.

(** JSON documents, and the two ways one reaches the conversion: as the
    collections proto-plus makes of a [Struct] field, and as the messages
    [Struct], [ListValue] and [Value] themselves. *)
Module Json.
Import PyStr Services ProtoStruct.

#[warnings="-register-all"]
Inductive json : Type :=
| Jnull
| Jbool (b : bool)
| Jnumber (x : pyfloat)
| Jstring (s : str)
| Jarray (elements : list json)
| Jobject (members : list (str * json)).

(** The Python value of a document: None, bool, float, str, list, dict. *)
Fixpoint plain (j : json) : pyjson :=
  match j with
  | Jnull => JScalar SNone
  | Jbool b => JScalar (SBool b)
  | Jnumber x => JScalar (SFloat x)
  | Jstring s => JScalar (SStr s)
  | Jarray elements => JList (map plain elements)
  | Jobject members => JDict (map (fun kv => (fst kv, plain (snd kv))) members)
  end.

(** The document as marshalled collections and plain values. *)
Fixpoint marshalled (j : json) : wire :=
  match j with
  | Jnull => Scalar SNone
  | Jbool b => Scalar (SBool b)
  | Jnumber x => Scalar (SFloat x)
  | Jstring s => Scalar (SStr s)
  | Jarray elements => RepeatedComposite (map marshalled elements)
  | Jobject members =>
      MapComposite (map (fun kv => (fst kv, marshalled (snd kv))) members)
  end.

(** The document as a [google.protobuf.Value]. *)
Fixpoint well_known (j : json) : wire :=
  match j with
  | Jnull => Value (Some null_value) []
  | Jbool b => Value (Some (bool_value b)) []
  | Jnumber x => Value (Some (number_value x)) []
  | Jstring s => Value (Some (string_value s)) []
  | Jarray elements =>
      Value (Some (list_value (ListValue (map well_known elements)))) []
  | Jobject members =>
      Value (Some (struct_value
                     (Struct (map (fun kv => (fst kv, well_known (snd kv)))
                                members)))) []
  end.

End Json.

(* ===================================================================== *)
(** * Part III: properties                                                *)
(* ===================================================================== *)

Import PyStr Re Words Validator Services.

(** ** Character classes *)
Section Characters.

Ltac by_cases_on c :=
  destruct c as [[] [] [] [] [] [] [] []]; vm_compute; try reflexivity;
  try discriminate; auto.

Lemma isspace_not_word (c : ascii) : isspace c = true -> isword c = false.
Proof. by_cases_on c. Qed.

Lemma isword_lower (c : ascii) : isword (lower c) = isword c.
Proof. by_cases_on c. Qed.

Lemma upper_lower (c : ascii) : upper (lower c) = upper c.
Proof. by_cases_on c. Qed.

Lemma ci_eqb_lower (p c : ascii) : ci_eqb p c = true <-> lower c = lower p.
Proof. unfold ci_eqb. apply Ascii.eqb_eq. Qed.

Lemma ci_eqb_word (p c : ascii) : ci_eqb p c = true -> isword c = isword p.
Proof.
  intros H. apply ci_eqb_lower in H.
  rewrite <- (isword_lower c), <- (isword_lower p). now rewrite H.
Qed.

Lemma ci_eqb_upper (p c : ascii) : ci_eqb p c = true -> upper c = upper p.
Proof.
  intros H. apply ci_eqb_lower in H.
  rewrite <- (upper_lower c), <- (upper_lower p). now rewrite H.
Qed.

Lemma ci_eqb_not_space (p c : ascii) :
  isword p = true -> isspace c = true -> ci_eqb p c = false.
Proof.
  intros Hp Hc. destruct (ci_eqb p c) eqn:E; [|reflexivity].
  apply ci_eqb_word in E. apply isspace_not_word in Hc. congruence.
Qed.

End Characters.

(** ** [strip] and its relatives *)
Section Stripping.

Lemma lstrip_split (s : str) : s = leading_spaces s ++ lstrip s.
Proof.
  induction s as [|c t IH]; simpl; [reflexivity|].
  destruct (isspace c); simpl; [now f_equal | reflexivity].
Qed.

Lemma leading_spaces_blank (s : str) : blank (leading_spaces s) = true.
Proof.
  induction s as [|c t IH]; simpl; [reflexivity|].
  destruct (isspace c) eqn:E; simpl; [now rewrite E | reflexivity].
Qed.

Lemma lstrip_head (s : str) (c : ascii) (t : str) :
  lstrip s = c :: t -> isspace c = false.
Proof.
  induction s as [|d u IH]; simpl; [discriminate|].
  destruct (isspace d) eqn:E; [exact IH|]. intros [= <- <-]. exact E.
Qed.

Lemma lstrip_fixed (s : str) :
  match s with c :: _ => isspace c = false | [] => True end -> lstrip s = s.
Proof. destruct s as [|c t]; simpl; [reflexivity|]. now intros ->. Qed.

Lemma truthy_lstrip (s : str) : truthy (lstrip s) = negb (blank s).
Proof.
  induction s as [|c t IH]; simpl; [reflexivity|].
  destruct (isspace c); simpl; [exact IH | reflexivity].
Qed.

Lemma blank_app (a b : str) : blank (a ++ b) = blank a && blank b.
Proof. apply forallb_app. Qed.

Lemma blank_rev (s : str) : blank (rev s) = blank s.
Proof.
  induction s as [|c t IH]; simpl; [reflexivity|].
  rewrite blank_app, IH. simpl. rewrite andb_true_r. apply andb_comm.
Qed.

Lemma truthy_rev (s : str) : truthy (rev s) = truthy s.
Proof.
  destruct s as [|c t]; simpl; [reflexivity|].
  destruct (rev t); reflexivity.
Qed.

Lemma blank_lstrip (s : str) : blank (lstrip s) = blank s.
Proof.
  induction s as [|c t IH]; simpl; [reflexivity|].
  destruct (isspace c) eqn:E; simpl; [exact IH | now rewrite E].
Qed.

Lemma rstrip_split (s : str) : s = rstrip s ++ trailing_spaces s.
Proof.
  unfold rstrip, trailing_spaces. rewrite <- rev_app_distr.
  rewrite <- lstrip_split. symmetry. apply rev_involutive.
Qed.

Lemma trailing_spaces_blank (s : str) : blank (trailing_spaces s) = true.
Proof.
  unfold trailing_spaces. rewrite blank_rev. apply leading_spaces_blank.
Qed.

Lemma truthy_strip (s : str) : truthy (strip s) = negb (blank s).
Proof.
  unfold strip, rstrip. rewrite truthy_rev, truthy_lstrip, blank_rev.
  now rewrite blank_lstrip.
Qed.

(** A stripped string begins with no whitespace. *)
Lemma lstrip_strip (s : str) : lstrip (strip s) = strip s.
Proof.
  apply lstrip_fixed. unfold strip.
  destruct (lstrip s) as [|c u] eqn:E; [exact I|].
  pose proof (lstrip_head _ _ _ E) as Hc.
  pose proof (rstrip_split (c :: u)) as Hs.
  destruct (rstrip (c :: u)) as [|d r] eqn:R.
  - exact I.
  - simpl in Hs. now injection Hs as <- _.
Qed.

(** What [strip] keeps of a string that is not blank is not blank. *)
Lemma strip_split (s : str) :
  s = leading_spaces s ++ strip s ++ trailing_spaces (lstrip s).
Proof.
  unfold strip. rewrite <- rstrip_split. apply lstrip_split.
Qed.

End Stripping.

(** ** Whole words, and the whitespace around a string *)
Section WholeWords.

Lemma skipn_app_exact {A : Type} (u rest : list A) :
  skipn (length u) (u ++ rest) = rest.
Proof. induction u; simpl; auto. Qed.

Lemma head_skipn {A : Type} (n : nat) (l : list A) :
  head (skipn n l) = nth_error l n.
Proof.
  revert l. induction n as [|n IH]; intros [|x l]; simpl; auto.
Qed.

Lemma keyword_word (w : str) : keyword w = true -> forallb isword w = true.
Proof. unfold keyword. now intros [_ H]%andb_prop. Qed.

Lemma keyword_cons (w : str) :
  keyword w = true -> exists p w', w = p :: w' /\ isword p = true.
Proof.
  unfold keyword. destruct w as [|p w']; simpl; [discriminate|].
  intros [H _]%andb_prop. now exists p, w'.
Qed.

Lemma ci_prefix_length (w s : str) :
  ci_prefix w s = true -> length w <= length s.
Proof.
  revert s. induction w as [|p w IH]; intros [|c s]; simpl; try lia;
    try discriminate.
  intros [_ H]%andb_prop. apply IH in H. lia.
Qed.

Lemma ci_prefix_app_blank (w u ws : str) :
  forallb isword w = true -> blank ws = true ->
  ci_prefix w (u ++ ws) = ci_prefix w u.
Proof.
  revert u. induction w as [|p w IH]; intros u Hw Hb; [now destruct u|].
  simpl in Hw. apply andb_prop in Hw as [Hp Hw].
  destruct u as [|c u]; simpl.
  - destruct ws as [|c ws]; [reflexivity|]. simpl in Hb.
    apply andb_prop in Hb as [Hc _]. now rewrite ci_eqb_not_space.
  - now rewrite IH.
Qed.

Lemma blank_head_not_word (ws : str) :
  blank ws = true -> isword_opt (head ws) = false.
Proof.
  destruct ws as [|c ws]; simpl; [reflexivity|].
  intros [Hc _]%andb_prop. now apply isspace_not_word.
Qed.

Lemma word_char_at_app_blank (u ws : str) (n : nat) :
  n <= length u -> blank ws = true ->
  word_char_at (u ++ ws) n = word_char_at u n.
Proof.
  intros Hn Hb. unfold word_char_at.
  destruct (Nat.eq_dec n (length u)) as [->|Hne].
  - rewrite nth_error_app2 by lia. rewrite Nat.sub_diag.
    replace (nth_error u (length u)) with (@None ascii)
      by (symmetry; apply nth_error_None; lia).
    destruct ws as [|c ws]; simpl; [reflexivity|].
    simpl in Hb. apply andb_prop in Hb as [Hc _].
    now apply isspace_not_word.
  - now rewrite nth_error_app1 by lia.
Qed.

Lemma word_here_app_blank (w : str) (prev : option ascii) (u ws : str) :
  forallb isword w = true -> blank ws = true ->
  word_here w prev (u ++ ws) = word_here w prev u.
Proof.
  intros Hw Hb. unfold word_here. rewrite ci_prefix_app_blank by assumption.
  destruct (ci_prefix w u) eqn:E.
  - now rewrite word_char_at_app_blank by (auto using ci_prefix_length).
  - now rewrite !andb_false_r.
Qed.

Lemma word_here_prev (w : str) (p q : option ascii) (s : str) :
  isword_opt p = isword_opt q -> word_here w p s = word_here w q s.
Proof. unfold word_here. now intros ->. Qed.

Lemma find_word_prev (w : str) (p q : option ascii) (s : str) :
  isword_opt p = isword_opt q -> find_word w p s = find_word w q s.
Proof. intros H. destruct s; simpl; now rewrite (word_here_prev w p q). Qed.

Lemma word_here_space (w : str) (prev : option ascii) (c : ascii) (t : str) :
  keyword w = true -> isspace c = true -> word_here w prev (c :: t) = false.
Proof.
  intros (p & w' & -> & Hp)%keyword_cons Hc. unfold word_here. simpl.
  rewrite ci_eqb_not_space by assumption. now rewrite andb_false_r.
Qed.

Lemma word_here_nil (w : str) (prev : option ascii) :
  keyword w = true -> word_here w prev [] = false.
Proof.
  intros (p & w' & -> & Hp)%keyword_cons. unfold word_here. simpl.
  now rewrite andb_false_r.
Qed.

(** Leading whitespace hides no occurrence and makes none. *)
Lemma find_word_skip_blank (w : str) (prev : option ascii) (ws s : str) :
  keyword w = true -> blank ws = true -> isword_opt prev = false ->
  find_word w prev (ws ++ s) = find_word w None s.
Proof.
  intros Hw. revert prev. induction ws as [|c ws IH]; intros prev Hb Hp.
  - simpl. now apply find_word_prev.
  - simpl in Hb. apply andb_prop in Hb as [Hc Hb]. simpl.
    rewrite word_here_space by assumption. simpl.
    apply IH; [assumption|]. simpl. now apply isspace_not_word.
Qed.

(** Nor does trailing whitespace. *)
Lemma find_word_app_blank (w : str) (prev : option ascii) (u ws : str) :
  keyword w = true -> blank ws = true ->
  find_word w prev (u ++ ws) = find_word w prev u.
Proof.
  intros Hw Hb. revert prev. induction u as [|c u IH]; intros prev.
  - simpl. rewrite (word_here_nil w prev Hw). simpl.
    clear -Hw Hb. revert prev.
    induction ws as [|c ws IH]; intros prev; simpl.
    + now rewrite word_here_nil.
    + simpl in Hb. apply andb_prop in Hb as [Hc Hb].
      rewrite word_here_space by assumption. now apply IH.
  - change ((c :: u) ++ ws) with (c :: (u ++ ws)).
    cbn [find_word]. rewrite IH. f_equal.
    change (c :: (u ++ ws)) with ((c :: u) ++ ws).
    apply word_here_app_blank; auto using keyword_word.
Qed.

Lemma contains_word_strip (w s : str) :
  keyword w = true -> contains_word w (strip s) = contains_word w s.
Proof.
  intros Hw. unfold contains_word.
  rewrite (strip_split s) at 2.
  rewrite find_word_skip_blank
    by (auto using leading_spaces_blank).
  symmetry. apply find_word_app_blank;
    auto using trailing_spaces_blank.
Qed.

Lemma begins_with_word_here (w s : str) :
  begins_with_word w s = word_here w None (lstrip s).
Proof. reflexivity. Qed.

Lemma begins_with_word_strip (w s : str) :
  keyword w = true -> begins_with_word w (strip s) = begins_with_word w s.
Proof.
  intros Hw. rewrite !begins_with_word_here, lstrip_strip.
  unfold strip. rewrite (rstrip_split (lstrip s)) at 2.
  symmetry. apply word_here_app_blank;
    auto using keyword_word, trailing_spaces_blank.
Qed.

(** An occurrence as a whole word is an occurrence between two characters
    that are not word characters (or the ends of the string). *)
Lemma find_word_spec (w : str) (prev : option ascii) (s : str) :
  find_word w prev s = true <->
  exists pre post,
    s = pre ++ post
    /\ word_here w (match rev pre with c :: _ => Some c | [] => prev end) post
       = true.
Proof.
  revert prev. induction s as [|c t IH]; intros prev; simpl.
  - rewrite orb_false_r. split.
    + intros H. now exists [], [].
    + intros (pre & post & E & H). symmetry in E.
      apply app_eq_nil in E as [-> ->]. exact H.
  - rewrite orb_true_iff, IH. split.
    + intros [H | (pre & post & -> & H)].
      * now exists [], (c :: t).
      * exists (c :: pre), post. split; [reflexivity|].
        simpl. destruct (rev pre) as [|d r] eqn:R; simpl; exact H.
    + intros (pre & post & E & H). destruct pre as [|d pre].
      * simpl in E, H. subst post. now left.
      * injection E as <- ->. right. exists pre, post.
        split; [reflexivity|]. simpl in H.
        destruct (rev pre) as [|e r] eqn:R; simpl in H; exact H.
Qed.

End WholeWords.

(** ** What the words of the specification mean *)
Section Vocabulary.

Lemma ci_prefix_spec (w s : str) :
  ci_prefix w s = true <-> exists u rest, s = u ++ rest /\ same_letters u w.
Proof.
  unfold same_letters. revert s. induction w as [|p w IH]; intros s.
  - split; [|reflexivity]. intros _. now exists [], s.
  - destruct s as [|c s]; simpl.
    + split; [discriminate|]. intros (u & rest & E & L).
      symmetry in E. apply app_eq_nil in E as [-> _]. discriminate.
    + rewrite andb_true_iff, ci_eqb_lower, IH. split.
      * intros (Hc & u & rest & -> & L). exists (c :: u), rest.
        split; [reflexivity|]. simpl. now rewrite Hc, L.
      * intros (u & rest & E & L). destruct u as [|d u]; [discriminate|].
        simpl in E, L. injection E as <- ->. injection L as Hc L.
        split; [assumption|]. now exists u, rest.
Qed.

Lemma same_letters_length (u w : str) :
  same_letters u w -> length u = length w.
Proof.
  unfold same_letters. intros H.
  now rewrite <- (length_map lower u), H, length_map.
Qed.

(** A whole word at the head of [s]: its letters, between a character
    before and a character after that are not word characters. *)
Lemma word_here_spec (w : str) (prev : option ascii) (s : str) :
  word_here w prev s = true <->
  isword_opt prev = false
  /\ exists u rest,
       s = u ++ rest /\ same_letters u w /\ isword_opt (head rest) = false.
Proof.
  unfold word_here, word_char_at.
  rewrite !andb_true_iff, !negb_true_iff, ci_prefix_spec. split.
  - intros [[Hp (u & rest & -> & L)] Hn]. split; [assumption|].
    exists u, rest. repeat split; try assumption.
    rewrite <- (same_letters_length _ _ L) in Hn.
    rewrite <- head_skipn in Hn. now rewrite skipn_app_exact in Hn.
  - intros [Hp (u & rest & -> & L & Hn)]. repeat split; try assumption.
    + now exists u, rest.
    + rewrite <- (same_letters_length _ _ L), <- head_skipn.
      now rewrite skipn_app_exact.
Qed.

(** [contains_word]: the letters of [w] stand somewhere in [s], with no
    word character just before or just after. *)
Lemma contains_word_spec (w s : str) :
  contains_word w s = true <->
  exists pre u post,
    s = pre ++ u ++ post /\ same_letters u w
    /\ isword_opt (head (rev pre)) = false
    /\ isword_opt (head post) = false.
Proof.
  unfold contains_word. rewrite find_word_spec. split.
  - intros (pre & rest & -> & H). apply word_here_spec in H
      as [Hp (u & post & -> & L & Hn)].
    exists pre, u, post. repeat split; assumption.
  - intros (pre & u & post & -> & L & Hp & Hn). exists pre, (u ++ post).
    split; [reflexivity|]. apply word_here_spec. split.
    + exact Hp.
    + now exists u, post.
Qed.

Lemma lstrip_app_blank (ws x : str) :
  blank ws = true -> lstrip (ws ++ x) = lstrip x.
Proof.
  induction ws as [|c ws IH]; simpl; [reflexivity|].
  intros [Hc Hb]%andb_prop. rewrite Hc. now apply IH.
Qed.

Lemma same_letters_head (u w : str) (rest : str) :
  keyword w = true -> same_letters u w -> lstrip (u ++ rest) = u ++ rest.
Proof.
  intros (p & w' & -> & Hp)%keyword_cons L. apply lstrip_fixed.
  destruct u as [|c u]; [discriminate|]. simpl. injection L as Hc _.
  destruct (isspace c) eqn:E; [|reflexivity].
  apply isspace_not_word in E.
  rewrite <- (isword_lower c), Hc, isword_lower in E. congruence.
Qed.

(** [begins_with]: whitespace, then the letters of [w]. *)
Lemma begins_with_spec (w s : str) :
  keyword w = true ->
  begins_with w s = true <->
  exists ws u rest,
    s = ws ++ u ++ rest /\ blank ws = true /\ same_letters u w.
Proof.
  intros Hw. unfold begins_with. rewrite ci_prefix_spec. split.
  - intros (u & rest & E & L). exists (leading_spaces s), u, rest.
    repeat split; try assumption; [|apply leading_spaces_blank].
    rewrite <- E. apply lstrip_split.
  - intros (ws & u & rest & -> & Hb & L). exists u, rest.
    split; [|assumption].
    rewrite lstrip_app_blank by assumption.
    now apply (same_letters_head u w).
Qed.

(** [begins_with_word]: whitespace, then the letters of [w], then no word
    character. *)
Lemma begins_with_word_spec (w s : str) :
  keyword w = true ->
  begins_with_word w s = true <->
  exists ws u rest,
    s = ws ++ u ++ rest /\ blank ws = true /\ same_letters u w
    /\ isword_opt (head rest) = false.
Proof.
  intros Hw. rewrite begins_with_word_here, word_here_spec. split.
  - intros [_ (u & rest & E & L & Hn)]. exists (leading_spaces s), u, rest.
    repeat split; try assumption; [|apply leading_spaces_blank].
    rewrite <- E. apply lstrip_split.
  - intros (ws & u & rest & -> & Hb & L & Hn). split; [reflexivity|].
    exists u, rest. repeat split; try assumption.
    rewrite lstrip_app_blank by assumption.
    now apply (same_letters_head u w).
Qed.

End Vocabulary.

(** ** The matcher on the patterns of the validator *)
Section Matcher.

Lemma flat_map_one {A B : Type} (f : A -> list B) (a : A) :
  flat_map f [a] = f a.
Proof. simpl. apply app_nil_r. Qed.

Lemma rmatch_Seq (r1 r2 : regex) (st : mstate) :
  rmatch (Seq r1 r2) st = flat_map (rmatch r2) (rmatch r1 st).
Proof. reflexivity. Qed.

Lemma rmatch_WordB (st : mstate) :
  rmatch WordB st = if at_boundary st then [st] else [].
Proof. reflexivity. Qed.

Lemma rmatch_Group (r : regex) (st : mstate) :
  rmatch (Group r) st =
  map (fun st' => MState (seen st') (ahead st') (Some (consumed st st')))
      (rmatch r st).
Proof. reflexivity. Qed.

Lemma rmatch_Star (r : regex) (st : mstate) :
  rmatch (Star r) st = star_loop (rmatch r) (S (length (ahead st))) st.
Proof. reflexivity. Qed.

Lemma rmatch_Alt (r1 r2 : regex) (st : mstate) :
  rmatch (Alt r1 r2) st = rmatch r1 st ++ rmatch r2 st.
Proof. reflexivity. Qed.

(** A literal word matches exactly where it is a prefix, case apart. *)
Lemma rmatch_lit (w : str) (st : mstate) :
  rmatch (lit w) st =
  if ci_prefix w (ahead st)
  then [MState (rev (firstn (length w) (ahead st)) ++ seen st)
               (skipn (length w) (ahead st)) (group1 st)]
  else [].
Proof.
  revert st. induction w as [|p w IH]; intros [sn a g]; [reflexivity|].
  cbn [lit rmatch ahead seen group1 ci_prefix length].
  destruct a as [|c t]; [reflexivity|].
  destruct (ci_eqb p c); [|reflexivity].
  rewrite flat_map_one, IH. cbn [advance ahead seen group1 andb firstn skipn].
  destruct (ci_prefix w t); [|reflexivity].
  cbn [rev]. now rewrite <- app_assoc.
Qed.

(** [\s*] followed by a pattern that cannot start on whitespace: the
    pattern is tried after all the leading whitespace, and nowhere else. *)
Lemma star_space_then (r : regex) :
  (forall sn c t g, isspace c = true -> rmatch r (MState sn (c :: t) g) = []) ->
  forall a sn g fuel, length a < fuel ->
  flat_map (rmatch r) (star_loop (rmatch Space) fuel (MState sn a g))
  = rmatch r (MState (rev (leading_spaces a) ++ sn) (lstrip a) g).
Proof.
  intros Hr. induction a as [|c t IH]; intros sn g [|fuel] Hf;
    try (simpl in Hf; lia).
  - cbn. apply app_nil_r.
  - cbn [star_loop ahead leading_spaces lstrip].
    change (rmatch Space (MState sn (c :: t) g))
      with (if isspace c then [advance (MState sn (c :: t) g) c t] else []).
    destruct (isspace c) eqn:E.
    + rewrite flat_map_one. unfold advance. cbn [ahead seen group1 length].
      replace (length t <? S (length t)) with true
        by (symmetry; apply Nat.ltb_lt; lia).
      rewrite flat_map_app, flat_map_one, (Hr _ _ _ _ E), app_nil_r.
      rewrite IH by (simpl in Hf; lia).
      cbn [rev]. now rewrite <- app_assoc.
    + cbn [flat_map app]. apply app_nil_r.
Qed.

End Matcher.

Section Patterns.

Lemma ci_prefix_words (w a : str) :
  forallb isword w = true -> ci_prefix w a = true ->
  forallb isword (firstn (length w) a) = true.
Proof.
  revert a. induction w as [|p w IH]; intros [|c a] Hw H; simpl in *;
    try reflexivity; try discriminate.
  apply andb_prop in Hw as [Hp Hw]. apply andb_prop in H as [Hc H].
  rewrite (ci_eqb_word _ _ Hc), Hp. simpl. now apply IH.
Qed.

Lemma head_rev_word (u sn : str) :
  truthy u = true -> forallb isword u = true ->
  isword_opt (head (rev u ++ sn)) = true.
Proof.
  intros Hu Hw. destruct (rev u) as [|c r] eqn:R.
  - rewrite <- truthy_rev, R in Hu. discriminate.
  - simpl. rewrite forallb_forall in Hw. apply Hw.
    apply in_rev. rewrite R. now left.
Qed.

(** [\b] just after a keyword that was matched: the next character must
    not be a word character. *)
Lemma boundary_after_word (w a sn : str) (g : option str) :
  keyword w = true -> ci_prefix w a = true ->
  at_boundary (MState (rev (firstn (length w) a) ++ sn)
                      (skipn (length w) a) g)
  = negb (word_char_at a (length w)).
Proof.
  intros Hw H. unfold at_boundary, word_char_at. cbn [seen ahead].
  rewrite head_skipn, head_rev_word; [reflexivity | |].
  - destruct (keyword_cons _ Hw) as (p & w' & -> & _).
    destruct a; [discriminate | reflexivity].
  - apply ci_prefix_words; auto using keyword_word.
Qed.

(** [\b] just before a keyword that matches: the character before must not
    be a word character. *)
Lemma boundary_before_word (w a sn : str) (g : option str) :
  keyword w = true -> ci_prefix w a = true ->
  at_boundary (MState sn a g) = negb (isword_opt (head sn)).
Proof.
  intros (p & w' & -> & Hp)%keyword_cons H. unfold at_boundary.
  cbn [seen ahead]. destruct a as [|c a]; [discriminate|].
  simpl in H. apply andb_prop in H as [Hc _].
  simpl. rewrite (ci_eqb_word _ _ Hc), Hp. apply xorb_true_r.
Qed.

(** The pattern [\bKEYWORD\b] at one position. *)
Lemma rmatch_pat_word (w sn a : str) (g : option str) :
  keyword w = true ->
  rmatch (pat_word w) (MState sn a g) =
  if word_here w (head sn) a
  then [MState (rev (firstn (length w) a) ++ sn) (skipn (length w) a) g]
  else [].
Proof.
  intros Hw. unfold pat_word, word_here.
  rewrite rmatch_Seq, rmatch_WordB. destruct (ci_prefix w a) eqn:E.
  - rewrite (boundary_before_word w a sn g Hw E).
    destruct (isword_opt (head sn)); [reflexivity|]. cbn [negb andb].
    rewrite flat_map_one, rmatch_Seq, rmatch_lit.
    cbn [ahead seen group1]. rewrite E, flat_map_one, rmatch_WordB.
    rewrite (boundary_after_word w a sn g Hw E).
    now destruct (word_char_at a (length w)).
  - rewrite andb_false_r. cbn [andb].
    destruct (at_boundary _); [|reflexivity].
    rewrite flat_map_one, rmatch_Seq, rmatch_lit.
    cbn [ahead]. now rewrite E.
Qed.

(** [re.search(r"\bKEYWORD\b", s, re.IGNORECASE)] finds a match exactly when
    the keyword occurs in [s] as a whole word. *)
Lemma search_from_pat_word (w sn a : str) :
  keyword w = true ->
  matched (search_from (pat_word w) sn a) = find_word w (head sn) a.
Proof.
  intros Hw. revert sn. induction a as [|c a IH]; intros sn.
  - cbn [search_from find_word]. rewrite rmatch_pat_word by assumption.
    now destruct (word_here w (head sn) []).
  - cbn [search_from find_word]. rewrite rmatch_pat_word by assumption.
    destruct (word_here w (head sn) (c :: a)); [reflexivity|].
    now rewrite IH.
Qed.

Lemma re_search_pat_word (w s : str) :
  keyword w = true ->
  matched (re_search (pat_word w) s) = contains_word w s.
Proof. intros Hw. now apply search_from_pat_word. Qed.

End Patterns.

(** ** The matcher at work *)
Section MatcherExamples.

Example match_select_lowercase :
  option_map group_1 (re_match pat_select_or_with (py "select 1"))
  = Some (py "select").
Proof. reflexivity. Qed.

Example match_with_after_blanks :
  option_map group_1 (re_match pat_select_or_with (py "  With x"))
  = Some (py "With").
Proof. reflexivity. Qed.

Example no_match_selected :
  re_match pat_select_or_with (py "SELECTED") = None.
Proof. reflexivity. Qed.

Example search_finds_word :
  matched (re_search (pat_word (py "DROP")) (py "a; drop table t")) = true.
Proof. reflexivity. Qed.

Example search_skips_longer_word :
  matched (re_search (pat_word (py "CREATE"))
             (py "select created_at from t")) = false.
Proof. reflexivity. Qed.

Example search_skips_underscore :
  matched (re_search (pat_word (py "UPDATE"))
             (py "select last_update from t")) = false.
Proof. reflexivity. Qed.

Example search_in_literal :
  matched (re_search (pat_word (py "UPDATE"))
             (py "select 1 from t where x = 'update'")) = true.
Proof. reflexivity. Qed.

End MatcherExamples.

(** ** The structure check and the keyword scan, in the words of the
       specification *)
Section ValidatorSteps.

Lemma ci_prefix_upper (w a : str) :
  ci_prefix w a = true -> str_upper (firstn (length w) a) = str_upper w.
Proof.
  revert a. induction w as [|p w IH]; intros [|c a] H; simpl in *;
    try reflexivity; try discriminate.
  apply andb_prop in H as [Hc H].
  now rewrite (ci_eqb_upper _ _ Hc), (IH a H).
Qed.

Lemma consumed_firstn (n : nat) (sn sn' a : str) (g g' : option str) :
  n <= length a ->
  consumed (MState sn a g) (MState sn' (skipn n a) g') = firstn n a.
Proof.
  intros Hn. unfold consumed. cbn [ahead]. rewrite length_skipn.
  f_equal. lia.
Qed.

Lemma select_or_with_exclusive (a : str) :
  ci_prefix (py "SELECT") a = true -> ci_prefix (py "WITH") a = false.
Proof.
  destruct a as [|c a]; [discriminate|]. simpl.
  intros [H _]%andb_prop. apply ci_eqb_lower in H.
  destruct (ci_eqb "W" c) eqn:E; [|reflexivity].
  apply ci_eqb_lower in E. rewrite H in E. discriminate.
Qed.

(** [(SELECT|WITH)\b] at one position. *)
Lemma rmatch_keyword_tail (sn a : str) (g : option str) :
  rmatch (Seq (Group (Alt (lit (py "SELECT")) (lit (py "WITH")))) WordB)
         (MState sn a g) =
  if word_here (py "SELECT") None a
  then [MState (rev (firstn 6 a) ++ sn) (skipn 6 a) (Some (firstn 6 a))]
  else if word_here (py "WITH") None a
  then [MState (rev (firstn 4 a) ++ sn) (skipn 4 a) (Some (firstn 4 a))]
  else [].
Proof.
  rewrite rmatch_Seq, rmatch_Group, rmatch_Alt, !rmatch_lit.
  unfold word_here. cbn [ahead seen group1 isword_opt negb andb].
  change (length (py "SELECT")) with 6. change (length (py "WITH")) with 4.
  destruct (ci_prefix (py "SELECT") a) eqn:ES.
  - rewrite (select_or_with_exclusive a ES). cbn [app map seen ahead].
    rewrite flat_map_one, rmatch_WordB.
    rewrite (consumed_firstn 6) by (apply (ci_prefix_length _ _ ES)).
    rewrite (boundary_after_word (py "SELECT") a sn _ eq_refl ES).
    change (length (py "SELECT")) with 6.
    now destruct (word_char_at a 6).
  - cbn [app]. destruct (ci_prefix (py "WITH") a) eqn:EW; [|reflexivity].
    cbn [map seen ahead]. rewrite flat_map_one, rmatch_WordB.
    rewrite (consumed_firstn 4) by (apply (ci_prefix_length _ _ EW)).
    rewrite (boundary_after_word (py "WITH") a sn _ eq_refl EW).
    change (length (py "WITH")) with 4.
    now destruct (word_char_at a 4).
Qed.

Lemma keyword_tail_not_on_space (sn : str) (c : ascii) (t : str)
    (g : option str) :
  isspace c = true ->
  rmatch (Seq (Group (Alt (lit (py "SELECT")) (lit (py "WITH")))) WordB)
         (MState sn (c :: t) g) = [].
Proof.
  intros Hc. rewrite rmatch_keyword_tail.
  now rewrite !word_here_space.
Qed.

(** [re.match(r"^\s*(SELECT|WITH)\b", s, re.IGNORECASE)] and its group 1. *)
Lemma re_match_select_or_with (s : str) :
  option_map group_1 (re_match pat_select_or_with s) =
  if begins_with_word (py "SELECT") s then Some (firstn 6 (lstrip s))
  else if begins_with_word (py "WITH") s then Some (firstn 4 (lstrip s))
  else None.
Proof.
  unfold re_match, pat_select_or_with.
  rewrite rmatch_Seq.
  change (rmatch Bol (MState [] s None)) with [MState [] s None].
  rewrite flat_map_one, rmatch_Seq, rmatch_Star. cbn [ahead].
  rewrite (star_space_then _ keyword_tail_not_on_space) by lia.
  rewrite rmatch_keyword_tail, !begins_with_word_here.
  destruct (word_here (py "SELECT") None (lstrip s)); [reflexivity|].
  now destruct (word_here (py "WITH") None (lstrip s)).
Qed.

Lemma begins_with_word_prefix (w s : str) :
  begins_with_word w s = true -> ci_prefix w (lstrip s) = true.
Proof. unfold begins_with_word, begins_with. now intros [H _]%andb_prop. Qed.

(** The structure check says: SELECT as a first word, or WITH as a first
    word and SELECT as a word somewhere. *)
Lemma check_structure_spec (t : str) :
  check_structure t =
  if begins_with_word (py "SELECT") t then (true, [])
  else if begins_with_word (py "WITH") t then
    if contains_word (py "SELECT") t then (true, [])
    else (false, msg_with_without_select)
  else (false, msg_must_start).
Proof.
  unfold check_structure. pose proof (re_match_select_or_with t) as H.
  destruct (re_match pat_select_or_with t) as [m|]; cbn [option_map] in H.
  - destruct (begins_with_word (py "SELECT") t) eqn:ES.
    + injection H as ->. apply begins_with_word_prefix in ES.
      pose proof (ci_prefix_upper (py "SELECT") _ ES) as U.
      change (length (py "SELECT")) with 6 in U. now rewrite U.
    + destruct (begins_with_word (py "WITH") t) eqn:EW; [|discriminate].
      injection H as ->. apply begins_with_word_prefix in EW.
      pose proof (ci_prefix_upper (py "WITH") _ EW) as U.
      change (length (py "WITH")) with 4 in U. rewrite U.
      change (str_eqb (str_upper (py "WITH")) (py "WITH")) with true.
      cbn iota. now rewrite re_search_pat_word.
  - destruct (begins_with_word (py "SELECT") t); [discriminate|].
    now destruct (begins_with_word (py "WITH") t).
Qed.

(** The loop returns the first keyword of the list that occurs as a whole
    word. *)
Lemma scan_forbidden_spec (keywords : list str) (t : str) :
  forallb keyword keywords = true ->
  scan_forbidden keywords t = find (fun k => contains_word k t) keywords.
Proof.
  induction keywords as [|k ks IH]; [reflexivity|]. simpl.
  intros [Hk Hks]%andb_prop. rewrite re_search_pat_word by assumption.
  destruct (contains_word k t); [reflexivity | now apply IH].
Qed.

Lemma forbidden_are_keywords : forallb keyword forbidden_keywords = true.
Proof. reflexivity. Qed.

Lemma blank_test (s : str) :
  negb (truthy s) || negb (truthy (strip s)) = blank s.
Proof.
  rewrite truthy_strip, negb_involutive.
  destruct s as [|c t]; [reflexivity|]. reflexivity.
Qed.

(** The whole block, step by step. *)
Lemma validate_with_spec (scan : str -> option str) (s : str) :
  validate_with scan s =
  if blank s then Verdict false true msg_empty
  else if structure_ok s then
    match scan (strip s) with
    | Some k => Verdict true false (msg_disallowed k)
    | None => Verdict true true []
    end
  else if begins_with_word (py "WITH") s
  then Verdict false true msg_with_without_select
  else Verdict false true msg_must_start.
Proof.
  unfold validate_with, structure_ok. rewrite blank_test.
  destruct (blank s); [reflexivity|].
  rewrite check_structure_spec.
  rewrite !begins_with_word_strip, contains_word_strip by reflexivity.
  destruct (begins_with_word (py "SELECT") s); [reflexivity|].
  destruct (begins_with_word (py "WITH") s); [|reflexivity].
  now destruct (contains_word (py "SELECT") s).
Qed.

End ValidatorSteps.

(** ** The validator: claims C1 to C5 *)
Section ValidatorClaims.

Lemma validate_sql_spec (s : str) :
  validate_sql s =
  if blank s then Verdict false true msg_empty
  else if structure_ok s then
    match find (fun k => contains_word k s) forbidden_keywords with
    | Some k => Verdict true false (msg_disallowed k)
    | None => Verdict true true []
    end
  else if begins_with_word (py "WITH") s
  then Verdict false true msg_with_without_select
  else Verdict false true msg_must_start.
Proof.
  unfold validate_sql. rewrite validate_with_spec.
  rewrite (scan_forbidden_spec _ _ forbidden_are_keywords).
  destruct (blank s); [reflexivity|].
  destruct (structure_ok s); [|reflexivity].
  assert (E : forall ks, forallb keyword ks = true ->
            find (fun k => contains_word k (strip s)) ks
            = find (fun k => contains_word k s) ks).
  { induction ks as [|k ks IH]; [reflexivity|]. simpl.
    intros [Hk Hks]%andb_prop. rewrite contains_word_strip by assumption.
    now rewrite IH. }
  now rewrite (E _ forbidden_are_keywords).
Qed.

(** The structure flag of the code is the structure check of the
    specification, on strings that are not blank. *)
Lemma structure_flag (scan : str -> option str) (s : str) :
  is_valid_query_structure (validate_with scan s)
  = negb (blank s) && structure_ok s.
Proof.
  rewrite validate_with_spec. destruct (blank s); [reflexivity|].
  destruct (structure_ok s); cbn [negb andb].
  - now destruct (scan (strip s)).
  - now destruct (begins_with_word (py "WITH") s).
Qed.

Lemma structure_valid_inv (s : str) :
  is_valid_query_structure (validate_sql s) = true ->
  blank s = false /\ structure_ok s = true.
Proof.
  unfold validate_sql. rewrite structure_flag.
  intros [H1 H2]%andb_prop. now apply negb_true_iff in H1.
Qed.

Lemma structure_invalid_inv (s : str) :
  blank s = false ->
  is_valid_query_structure (validate_sql s) = false ->
  structure_ok s = false.
Proof.
  unfold validate_sql. rewrite structure_flag. now intros ->.
Qed.



(** C2.  The checks apply in a fixed order and the first failure wins: a
    blank string gets the empty-query message whatever the keyword scan
    would say; a string that is not blank and fails the structure check
    gets one of the two structure messages, again whatever the scan would
    say; only a string that passes both has the scan decide.  So a
    whitespace-only string is rejected with "LLM returned an empty SQL
    query.", and "DROP TABLE t" with the structure message although DROP
    occurs in it. *)
Theorem validation_precedence :
  (forall (scan : str -> option str) (s : str),
     blank s = true ->
     validate_with scan s
     = Verdict false true (py "LLM returned an empty SQL query."))
  /\ (forall (scan : str -> option str) (s : str),
        blank s = false ->
        is_valid_query_structure (validate_sql s) = false ->
        validate_with scan s = validate_sql s
        /\ is_safe_for_readonly (validate_sql s) = true
        /\ (validation_error_message (validate_sql s)
            = py "SQL starts with WITH but does not contain a SELECT statement."
            \/ validation_error_message (validate_sql s)
               = py "Generated SQL must start with SELECT or WITH."))
  /\ (forall (scan : str -> option str) (s : str),
        blank s = false ->
        is_valid_query_structure (validate_sql s) = true ->
        validate_with scan s
        = match scan (strip s) with
          | Some k => Verdict true false (msg_disallowed k)
          | None => Verdict true true []
          end)
  /\ validate_sql [] = Verdict false true (py "LLM returned an empty SQL query.")
  /\ validate_sql (py "   ")
     = Verdict false true (py "LLM returned an empty SQL query.")
  /\ (let s := py "DROP TABLE t" in
      contains_word (py "DROP") s = true
      /\ validate_sql s
         = Verdict false true (py "Generated SQL must start with SELECT or WITH.")).
Proof.
  split; [|split; [|split; [|repeat split; now vm_compute]]].
  - intros scan s Hb. now rewrite validate_with_spec, Hb.
  - intros scan s Hb Hs. pose proof (structure_invalid_inv s Hb Hs) as Hok.
    unfold validate_sql. rewrite !validate_with_spec, Hb, Hok.
    destruct (begins_with_word (py "WITH") s); repeat split; auto.
  - intros scan s Hb Hs. apply structure_valid_inv in Hs as [_ Hok].
    now rewrite validate_with_spec, Hb, Hok.
Qed.

(** A whitespace-only string under a scan that would flag it; the structure
    failure of "DROP TABLE t" under a scan that would flag every string; a
    valid query under a scan that flags nothing. *)
Lemma validation_precedence_witness :
  validate_with (fun _ => Some (py "DROP")) (py "   ")
  = Verdict false true (py "LLM returned an empty SQL query.")
  /\ validate_with (fun _ => Some (py "DROP")) (py "DROP TABLE t")
     = validate_sql (py "DROP TABLE t")
  /\ validate_with (fun _ => None) (py "select 1 -- drop")
     = Verdict true true [].
Proof.
  destruct validation_precedence as (Hblank & Hstructure & Hscan & _).
  split; [|split].
  - exact (Hblank (fun _ => Some (py "DROP")) (py "   ") eq_refl).
  - exact (proj1 (Hstructure (fun _ => Some (py "DROP")) (py "DROP TABLE t")
                    eq_refl eq_refl)).
  - exact (Hscan (fun _ => None) (py "select 1 -- drop") eq_refl eq_refl).
Defined.




(** C4, as stated, fails: the validator accepts "WITH x AS (SELECT 1)". *)
Lemma cte_only_counterexample :
  rejected (validate_sql (py "WITH x AS (SELECT 1)")) = false.
Proof. now vm_compute. Qed.

(** C4, amended.  The validator accepts "WITH x AS (SELECT 1)", in which
    SELECT occurs as a whole word inside the CTE body.  It gives the
    WITH-specific message only to strings in which SELECT occurs nowhere as
    a whole word, such as "WITH x AS (1)". *)
Theorem cte_only_accepted :
  validate_sql (py "WITH x AS (SELECT 1)") = Verdict true true []
  /\ contains_word (py "SELECT") (py "WITH x AS (SELECT 1)") = true
  /\ validate_sql (py "WITH x AS (1)")
     = Verdict false true
         (py "SQL starts with WITH but does not contain a SELECT statement.")
  /\ (forall s : str,
        validation_error_message (validate_sql s)
        = py "SQL starts with WITH but does not contain a SELECT statement." ->
        begins_with_word (py "WITH") s = true
        /\ contains_word (py "SELECT") s = false).
Proof.
  do 3 (split; [now vm_compute|]).
  intros s. rewrite validate_sql_spec. unfold structure_ok.
  destruct (blank s); [discriminate|].
  destruct (begins_with_word (py "SELECT") s); cbn [orb].
  { destruct (find _ forbidden_keywords); discriminate. }
  destruct (begins_with_word (py "WITH") s); cbn [andb]; [|discriminate].
  destruct (contains_word (py "SELECT") s); [|now split].
  destruct (find _ forbidden_keywords); discriminate.
Qed.

(** The WITH-specific message of "WITH x AS (1)" tells that SELECT does not
    occur in it. *)
Lemma cte_only_accepted_witness :
  begins_with_word (py "WITH") (py "WITH x AS (1)") = true
  /\ contains_word (py "SELECT") (py "WITH x AS (1)") = false.
Proof.
  exact (proj2 (proj2 (proj2 cte_only_accepted)) (py "WITH x AS (1)") eq_refl).
Defined.


Lemma not_begins_with (w s : str) :
  begins_with w s = false -> begins_with_word w s = false.
Proof. unfold begins_with_word. now intros ->. Qed.

Lemma must_start_message (s : str) :
  blank s = false ->
  begins_with_word (py "SELECT") s = false ->
  begins_with_word (py "WITH") s = false ->
  validate_sql s = Verdict false true msg_must_start.
Proof.
  intros Hb Hs Hw. rewrite validate_sql_spec, Hb. unfold structure_ok.
  now rewrite Hs, Hw.
Qed.



End ValidatorClaims.

(** ** The clean-up of the generator's reply: claim C6 *)
Section FenceStripping.
Import SqlGen.

Lemma startswith_app (p x : str) : startswith p (p ++ x) = true.
Proof.
  induction p as [|c p IH]; simpl; [reflexivity|].
  now rewrite Ascii.eqb_refl.
Qed.

Lemma startswith_prefix (p q u : str) :
  startswith (p ++ q) u = true -> startswith p u = true.
Proof.
  revert u. induction p as [|c p IH]; intros [|d u]; simpl; auto.
  intros [H1 H2]%andb_prop. rewrite H1. simpl. now apply IH.
Qed.

Lemma endswith_app (p x : str) : endswith p (x ++ p) = true.
Proof. unfold endswith. rewrite rev_app_distr. apply startswith_app. Qed.

Lemma slice_from_app (p x : str) : slice_from (length p) (p ++ x) = x.
Proof. unfold slice_from. induction p; simpl; auto. Qed.

Lemma slice_drop_last_app (p x : str) :
  slice_drop_last (length p) (x ++ p) = x.
Proof.
  unfold slice_drop_last. rewrite length_app.
  replace (length x + length p - length p) with (length x) by lia.
  induction x as [|c x IH]; simpl; [now destruct p | now f_equal].
Qed.

Lemma lstrip_lstrip (s : str) : lstrip (lstrip s) = lstrip s.
Proof.
  apply lstrip_fixed. destruct (lstrip s) as [|c t] eqn:E; [exact I|].
  now apply lstrip_head in E.
Qed.

Lemma strip_strip (s : str) : strip (strip s) = strip s.
Proof.
  unfold strip at 1. rewrite lstrip_strip. unfold strip, rstrip.
  now rewrite rev_involutive, lstrip_lstrip.
Qed.

Lemma no_fence_no_sql_fence (u : str) :
  startswith fence u = false -> startswith fence_sql u = false.
Proof.
  intros H. destruct (startswith fence_sql u) eqn:E; [|reflexivity].
  change fence_sql with (fence ++ py "sql") in E.
  apply startswith_prefix in E. congruence.
Qed.

(** C6.  The clean-up strips the whitespace around the reply, then one
    leading fence (```sql, or else ```) if the text begins with one, then
    one trailing fence (```) if what is left ends with one, then the
    whitespace around the rest.  The reply made of ```sql, a newline,
    SELECT 1, a newline and ``` becomes exactly "SELECT 1". *)
Theorem fence_stripping :
  clean_generated_sql (py "```sql" ++ nl ++ py "SELECT 1" ++ nl ++ py "```")
  = py "SELECT 1"
  /\ (forall text : str,
        strip (clean_generated_sql text) = clean_generated_sql text)
  /\ (forall text m : str,
        strip text = py "```sql" ++ m ++ py "```" ->
        clean_generated_sql text = strip m)
  /\ (forall text m : str,
        strip text = py "```" ++ m ++ py "```" ->
        startswith (py "```sql") (strip text) = false ->
        clean_generated_sql text = strip m)
  /\ (forall text m : str,
        strip text = py "```sql" ++ m ->
        endswith (py "```") m = false ->
        clean_generated_sql text = strip m)
  /\ (forall text m : str,
        strip text = py "```" ++ m ->
        startswith (py "```sql") (strip text) = false ->
        endswith (py "```") m = false ->
        clean_generated_sql text = strip m)
  /\ (forall text m : str,
        strip text = m ++ py "```" ->
        startswith (py "```") (strip text) = false ->
        clean_generated_sql text = strip m)
  /\ (forall text : str,
        startswith (py "```") (strip text) = false ->
        endswith (py "```") (strip text) = false ->
        clean_generated_sql text = strip text).
Proof.
  split; [now vm_compute|].
  split; [intros text; unfold clean_generated_sql; apply strip_strip|].
  split; [|split; [|split; [|split; [|split]]]].
  - intros text m H. unfold clean_generated_sql. rewrite H.
    change (py "```sql") with fence_sql. change (py "```") with fence.
    rewrite startswith_app. change 6 with (length fence_sql).
    rewrite slice_from_app, endswith_app. change 3 with (length fence).
    now rewrite slice_drop_last_app.
  - intros text m H N. unfold clean_generated_sql.
    change (py "```sql") with fence_sql in N. rewrite N, H.
    change (py "```") with fence.
    rewrite startswith_app. change 3 with (length fence).
    now rewrite slice_from_app, endswith_app, slice_drop_last_app.
  - intros text m H N. unfold clean_generated_sql. rewrite H.
    change (py "```sql") with fence_sql. change (py "```") with fence in N.
    rewrite startswith_app. change 6 with (length fence_sql).
    now rewrite slice_from_app, N.
  - intros text m H N1 N2. unfold clean_generated_sql.
    change (py "```sql") with fence_sql in N1. rewrite N1, H.
    change (py "```") with fence in *.
    rewrite startswith_app. change 3 with (length fence).
    now rewrite slice_from_app, N2.
  - intros text m H N. unfold clean_generated_sql.
    change (py "```") with fence in *.
    rewrite (no_fence_no_sql_fence _ N), N, H, endswith_app.
    change 3 with (length fence). now rewrite slice_drop_last_app.
  - intros text N1 N2. unfold clean_generated_sql.
    change (py "```") with fence in *.
    now rewrite (no_fence_no_sql_fence _ N1), N1, N2, strip_strip.
Qed.

(** One reply for each way the fences can stand. *)
Lemma fence_stripping_witness :
  clean_generated_sql (py " ```sql select 1 ``` ") = strip (py " select 1 ")
  /\ clean_generated_sql (py "  ``` select 1 ```  ") = strip (py " select 1 ")
  /\ clean_generated_sql (py "```sql select 1") = strip (py " select 1")
  /\ clean_generated_sql (py "``` select 1") = strip (py " select 1")
  /\ clean_generated_sql (py "select 1 ```") = strip (py "select 1 ")
  /\ clean_generated_sql (py " select 1 ") = strip (py " select 1 ").
Proof.
  destruct fence_stripping as (_ & _ & Hsql & Hboth & Hsql_only & Hlead
                               & Htrail & Hnone).
  split; [exact (Hsql (py " ```sql select 1 ``` ") (py " select 1 ") eq_refl)|].
  split; [exact (Hboth (py "  ``` select 1 ```  ") (py " select 1 ")
               eq_refl eq_refl)|].
  split; [exact (Hsql_only (py "```sql select 1") (py " select 1")
               eq_refl eq_refl)|].
  split; [exact (Hlead (py "``` select 1") (py " select 1")
               eq_refl eq_refl eq_refl)|].
  split; [exact (Htrail (py "select 1 ```") (py "select 1 ") eq_refl eq_refl)|].
  exact (Hnone (py " select 1 ") eq_refl eq_refl).
Defined.

End FenceStripping.

(** ** The coercion of result cells: claim C8 *)
Section CellCoercion.
Import PyTypes Executor.



End CellCoercion.

(** ** The summariser: claim C9 *)
Section Summary.
Import Summarizer.

Lemma firstn_same_context (svc : services) (rows rows' : list record)
    (max_rows : nat) :
  length rows = length rows' ->
  firstn max_rows rows = firstn max_rows rows' ->
  context_data_str svc rows max_rows = context_data_str svc rows' max_rows.
Proof. intros Hl Hf. unfold context_data_str. now rewrite Hl, Hf. Qed.

Lemma summary_never_raises (svc : services) (q sql : str)
    (results : option (list record)) (max_rows : nat) :
  exists text,
    generate_business_summary svc q sql results max_rows = Returns text.
Proof.
  unfold generate_business_summary.
  destruct (vertex_ai_initialized svc); cbn [negb]; [|eauto].
  destruct results as [rows|]; [|eauto].
  destruct (summary_model svc); [eauto|].
  destruct (summary_generate_content svc _) as [response|e];
    cbn [bind try_except]; [|eauto].
  destruct (response_text response); cbn [bind]; eauto.
Qed.



End Summary.

(** ** The handler on a validation failure: claim C7 *)
Section ValidationFailure.
Import SqlGen Executor Summarizer Endpoint.

(** Every rejection carries a message of its own. *)
Lemma rejection_has_message (s : str) :
  rejected (validate_sql s) = true ->
  rejection_message (validate_sql s)
  = validation_error_message (validate_sql s).
Proof.
  rewrite validate_sql_spec. unfold rejection_message.
  destruct (blank s); [reflexivity|].
  destruct (structure_ok s).
  - destruct (find _ forbidden_keywords); [reflexivity | discriminate].
  - now destruct (begins_with_word (py "WITH") s).
Qed.

(** C7.  When the generated SQL fails validation, the handler answers with
    a 200 whose [sql_query] is the rejected SQL, whose [dataframe_content]
    is null and whose [answer] is the validation message, and no query is
    sent to BigQuery. *)
Theorem validation_failure_response (svc : services)
    (nlp_question generated_sql : str) (sent : list str) :
  vertex_ai_initialized svc = true ->
  bq_client_present svc = true ->
  generate_sql_from_nlp svc (schema_description svc) nlp_question
  = Returns generated_sql ->
  rejected (validate_sql generated_sql) = true ->
  ask_nlp_query svc nlp_question sent
  = (Http200 {| query := nlp_question;
                sql_query := Some generated_sql;
                dataframe_content := None;
                answer := validation_error_message
                            (validate_sql generated_sql) |},
     sent).
Proof.
  intros Hv Hb Hg Hr. unfold ask_nlp_query, get_bigquery_table_schema.
  rewrite Hv, Hb. cbn [negb]. rewrite Hg. cbn zeta. rewrite Hr.
  now rewrite rejection_has_message.
Qed.

(** The model proposes a DROP. *)
Lemma validation_failure_response_witness :
  ask_nlp_query (Scenario.services_up (py "DROP TABLE t") (py "ok") [])
    (py "delete everything") []
  = (Http200 {| query := py "delete everything";
                sql_query := Some (py "DROP TABLE t");
                dataframe_content := None;
                answer := validation_error_message
                            (validate_sql (py "DROP TABLE t")) |},
     []).
Proof.
  exact (validation_failure_response
           (Scenario.services_up (py "DROP TABLE t") (py "ok") [])
           (py "delete everything") (py "DROP TABLE t") []
           eq_refl eq_refl eq_refl eq_refl).
Defined.

(** The gate: whatever the services do, the handler sends BigQuery at most
    one query, and only one that validation has accepted. *)
Lemma only_accepted_queries_are_sent (svc : services) (nlp_question : str)
    (sent : list str) :
  snd (ask_nlp_query svc nlp_question sent) = sent
  \/ exists generated_sql,
       rejected (validate_sql generated_sql) = false
       /\ snd (ask_nlp_query svc nlp_question sent) = sent ++ [generated_sql].
Proof.
  unfold ask_nlp_query.
  destruct (vertex_ai_initialized svc); cbn [negb]; [|now left].
  destruct (bq_client_present svc) eqn:Hb; cbn [negb]; [|now left].
  destruct (get_bigquery_table_schema svc); [|now left].
  destruct (generate_sql_from_nlp svc a nlp_question) as [sql|];
    [|now left].
  cbn zeta. destruct (rejected (validate_sql sql)) eqn:Hr; [now left|].
  unfold execute_bigquery_query. rewrite Hb. cbn [negb].
  destruct (truthy sql).
  - cbn [negb]. right. exists sql. split; [assumption|].
    destruct (try_except _ _); [|reflexivity].
    now destruct (generate_business_summary _ _ _ _ _).
  - now left.
Qed.

(** The end-to-end scenario of the specification: the generator proposes a
    sum, the executor returns one row, the summariser a fixed text. *)
Example end_to_end_scenario :
  ask_nlp_query
    (Scenario.services_up (py "SELECT SUM(product_sales) FROM t")
       (py "Sales were 1000.")
       [[(py "total", Plain (SFloat (PyTypes.dyadic 1000 0)))]])
    (py "total sales last week") []
  = (Http200
       {| query := py "total sales last week";
          sql_query := Some (py "SELECT SUM(product_sales) FROM t");
          dataframe_content :=
            Some {| data := [[(py "total", SFloat (PyTypes.dyadic 1000 0))]];
                    columns := [py "total"] |};
          answer := py "Sales were 1000." |},
     [py "SELECT SUM(product_sales) FROM t"]).
Proof. now vm_compute. Qed.

End ValidationFailure.

(** ** The conversation histories of variant 1: claim C10 *)
Section Histories.
Import DataQnA.

Implicit Types (h : gmap str (list message)) (c : str).

Lemma id_truthy_some (cid : option str) c :
  id_truthy cid = Some c -> cid = Some c /\ c <> [].
Proof.
  destruct cid as [[|a s]|]; simpl; try discriminate.
  intros [= <-]. now split.
Qed.

Lemma id_truthy_nonempty c : c <> [] -> id_truthy (Some c) = Some c.
Proof. destruct c; [contradiction | reflexivity]. Qed.

Lemma consume_all (items : list stream_item) (acc : list message) :
  Forall (fun it => handling it = None) items ->
  consume items acc = Returns (acc ++ map container items).
Proof.
  intros H. revert acc. induction H as [|it items Hit _ IH]; intros acc.
  - simpl. now rewrite app_nil_r.
  - simpl. rewrite Hit, IH. now rewrite <- app_assoc.
Qed.

(** The histories after [ask_question] are the histories before, or these
    with the one entry of the given id set. *)
Lemma ask_question_histories (api : dataqna_api) h (q : str)
    (cid : option str) :
  snd (ask_question api h q cid) = h
  \/ exists c replies,
       id_truthy cid = Some c
       /\ fst (ask_question api h q cid) = Answered replies
       /\ snd (ask_question api h q cid)
          = <[c := default [] (h !! c) ++ [UserMessage q] ++ replies]> h.
Proof.
  unfold ask_question.
  destruct (build_request api _) as [e|].
  { left. now destruct (is_value_error e). }
  match goal with
  | |- context [match ?b with Returns _ => _ | Raises _ => _ end] =>
      destruct b as [replies|e]
  end; [|now left].
  destruct (id_truthy cid) as [c|]; [|now left].
  right. now exists c, replies.
Qed.

Lemma reset_conversation_delete h c :
  c <> [] -> reset_conversation h (Some c) = delete c h.
Proof.
  intros Hc. unfold reset_conversation. rewrite (id_truthy_nonempty c Hc).
  destruct (h !! c) eqn:E; [reflexivity|]. symmetry. now apply delete_id.
Qed.



End Histories.

(* ===================================================================== *)
(** * Part IV: further properties of the code                             *)
(* ===================================================================== *)

(** ** The validator: what does not change its verdict *)
Section ValidatorInvariance.

Lemma find_ext_in {A : Type} (f g : A -> bool) (l : list A) :
  (forall x, In x l -> f x = g x) -> find f l = find g l.
Proof.
  induction l as [|x l IH]; intros H; [reflexivity|]. simpl.
  rewrite (H x) by now left. destruct (g x); [reflexivity|].
  apply IH. intros y Hy. apply H. now right.
Qed.

Lemma forbidden_keyword_is_keyword (k : str) :
  In k forbidden_keywords -> keyword k = true.
Proof.
  intros H. pose proof forbidden_are_keywords as F.
  rewrite forallb_forall in F. now apply F.
Qed.

(** The verdict is a function of three observations of the string. *)
Lemma validate_sql_observations (s s' : str) :
  blank s' = blank s ->
  (forall w, keyword w = true ->
     begins_with_word w s' = begins_with_word w s) ->
  (forall w, keyword w = true -> contains_word w s' = contains_word w s) ->
  validate_sql s' = validate_sql s.
Proof.
  intros Hb Hbw Hcw. rewrite !validate_sql_spec. unfold structure_ok.
  rewrite Hb, !Hbw, Hcw by reflexivity.
  rewrite (find_ext_in (fun k => contains_word k s')
             (fun k => contains_word k s)); [reflexivity|].
  intros k Hk. apply Hcw. now apply forbidden_keyword_is_keyword.
Qed.

Lemma lstrip_blank_nil (s : str) : blank s = true -> lstrip s = [].
Proof.
  intros H. pose proof (truthy_lstrip s) as T. rewrite H in T.
  now destruct (lstrip s).
Qed.

Lemma lstrip_app_nonblank (s x : str) :
  blank s = false -> lstrip (s ++ x) = lstrip s ++ x.
Proof.
  induction s as [|c s IH]; simpl; [discriminate|].
  destruct (isspace c); simpl; [exact IH | reflexivity].
Qed.

Lemma begins_with_word_padded (w ws1 s ws2 : str) :
  keyword w = true -> blank ws1 = true -> blank ws2 = true ->
  begins_with_word w (ws1 ++ s ++ ws2) = begins_with_word w s.
Proof.
  intros Hw H1 H2. rewrite !begins_with_word_here.
  rewrite lstrip_app_blank by assumption.
  destruct (blank s) eqn:B.
  - rewrite (lstrip_blank_nil s B).
    rewrite lstrip_blank_nil; [reflexivity|].
    now rewrite blank_app, B, H2.
  - rewrite lstrip_app_nonblank by assumption.
    apply word_here_app_blank; auto using keyword_word.
Qed.

Lemma contains_word_padded (w ws1 s ws2 : str) :
  keyword w = true -> blank ws1 = true -> blank ws2 = true ->
  contains_word w (ws1 ++ s ++ ws2) = contains_word w s.
Proof.
  intros Hw H1 H2. unfold contains_word.
  rewrite find_word_skip_blank by auto.
  now apply find_word_app_blank.
Qed.

(** X1.  Whitespace around the generated SQL never changes the verdict,
    flags and message alike. *)
Theorem surrounding_whitespace_ignored (ws1 s ws2 : str) :
  blank ws1 = true -> blank ws2 = true ->
  validate_sql (ws1 ++ s ++ ws2) = validate_sql s.
Proof.
  intros H1 H2. apply validate_sql_observations.
  - now rewrite !blank_app, H1, H2, andb_true_r.
  - intros w Hw. now apply begins_with_word_padded.
  - intros w Hw. now apply contains_word_padded.
Qed.

(** A query between a newline and two blanks. *)
Lemma surrounding_whitespace_ignored_witness :
  validate_sql (nl ++ py "select 1; drop table t" ++ py "  ")
  = validate_sql (py "select 1; drop table t").
Proof.
  exact (surrounding_whitespace_ignored nl (py "select 1; drop table t")
           (py "  ") eq_refl eq_refl).
Defined.

Ltac by_cases_on' c :=
  destruct c as [[] [] [] [] [] [] [] []]; vm_compute; reflexivity.

Lemma isspace_lower (c : ascii) : isspace (lower c) = isspace c.
Proof. by_cases_on' c. Qed.

Lemma lower_lower (c : ascii) : lower (lower c) = lower c.
Proof. by_cases_on' c. Qed.

Lemma blank_lower (s : str) : blank (map lower s) = blank s.
Proof.
  induction s as [|c s IH]; simpl; [reflexivity|].
  now rewrite isspace_lower, IH.
Qed.

Lemma lstrip_lower (s : str) : lstrip (map lower s) = map lower (lstrip s).
Proof.
  induction s as [|c s IH]; simpl; [reflexivity|].
  rewrite isspace_lower. destruct (isspace c); [exact IH | reflexivity].
Qed.

Lemma ci_prefix_lower (w s : str) :
  ci_prefix w (map lower s) = ci_prefix w s.
Proof.
  revert s. induction w as [|p w IH]; intros [|c s]; simpl; try reflexivity.
  unfold ci_eqb. now rewrite lower_lower, IH.
Qed.

Lemma word_char_at_lower (s : str) (n : nat) :
  word_char_at (map lower s) n = word_char_at s n.
Proof.
  unfold word_char_at. rewrite nth_error_map.
  destruct (nth_error s n); simpl; [apply isword_lower | reflexivity].
Qed.

Lemma word_here_lower (w : str) (prev : option ascii) (s : str) :
  word_here w (option_map lower prev) (map lower s) = word_here w prev s.
Proof.
  unfold word_here. rewrite ci_prefix_lower, word_char_at_lower. f_equal.
  f_equal. destruct prev; simpl; [now rewrite isword_lower | reflexivity].
Qed.

Lemma find_word_lower (w : str) (prev : option ascii) (s : str) :
  find_word w (option_map lower prev) (map lower s) = find_word w prev s.
Proof.
  revert prev. induction s as [|c s IH]; intros prev.
  - cbn [map find_word]. f_equal. exact (word_here_lower w prev []).
  - cbn [map find_word]. f_equal.
    + exact (word_here_lower w prev (c :: s)).
    + exact (IH (Some c)).
Qed.

Lemma validate_sql_lower (s : str) :
  validate_sql (map lower s) = validate_sql s.
Proof.
  apply validate_sql_observations.
  - apply blank_lower.
  - intros w _. rewrite !begins_with_word_here, lstrip_lower.
    exact (word_here_lower w None (lstrip s)).
  - intros w _. exact (find_word_lower w None s).
Qed.



End ValidatorInvariance.

(** ** The validator: what it accepts, what it cites, what it catches *)
Section ValidatorGate.



Lemma find_first {A : Type} (f : A -> bool) (l : list A) (x : A) :
  find f l = Some x ->
  exists l1 l2,
    l = l1 ++ x :: l2 /\ f x = true /\ forall y, In y l1 -> f y = false.
Proof.
  induction l as [|a l IH]; [discriminate|]. simpl.
  destruct (f a) eqn:E.
  - intros [= <-]. exists [], l. repeat split; [assumption|]. intros y [].
  - intros H. destruct (IH H) as (l1 & l2 & -> & Hx & Hy).
    exists (a :: l1), l2. repeat split; [assumption|].
    intros y [<-|Hin]; auto.
Qed.

(** X4.  When several forbidden keywords occur, the message cites the one
    that comes first in the list INSERT, UPDATE, DELETE, DROP, CREATE,
    ALTER, TRUNCATE, GRANT, REVOKE, MERGE, wherever they stand in the
    string. *)
Theorem first_listed_keyword_is_cited (s : str) :
  is_safe_for_readonly (validate_sql s) = false ->
  exists k earlier later,
    forbidden_keywords = earlier ++ k :: later
    /\ contains_word k s = true
    /\ (forall k', In k' earlier -> contains_word k' s = false)
    /\ validation_error_message (validate_sql s)
       = py "Generated SQL contains a disallowed keyword: " ++ k
         ++ py ". Only SELECT queries are permitted.".
Proof.
  rewrite validate_sql_spec.
  destruct (blank s); [discriminate|].
  destruct (structure_ok s).
  - destruct (find _ forbidden_keywords) as [k|] eqn:F; [|discriminate].
    intros _. destruct (find_first _ _ _ F) as (l1 & l2 & E & Hk & Hl1).
    now exists k, l1, l2.
  - now destruct (begins_with_word (py "WITH") s).
Qed.

(** DROP stands before INSERT in the string, and INSERT is cited. *)
Lemma first_listed_keyword_is_cited_witness :
  exists k earlier later,
    forbidden_keywords = earlier ++ k :: later
    /\ contains_word k (py "select 1; drop table t; insert into u") = true
    /\ (forall k', In k' earlier ->
          contains_word k' (py "select 1; drop table t; insert into u")
          = false)
    /\ validation_error_message
         (validate_sql (py "select 1; drop table t; insert into u"))
       = py "Generated SQL contains a disallowed keyword: " ++ k
         ++ py ". Only SELECT queries are permitted.".
Proof.
  exact (first_listed_keyword_is_cited
           (py "select 1; drop table t; insert into u") eq_refl).
Defined.

Lemma word_here_extend (w : str) (prev : option ascii) (t : str) (c : ascii)
    (y : str) :
  isword c = false ->
  word_here w prev t = true -> word_here w prev (t ++ c :: y) = true.
Proof.
  intros Hc. rewrite !word_here_spec.
  intros [Hp (u & rest & -> & L & Hn)]. split; [assumption|].
  exists u, (rest ++ c :: y). rewrite <- app_assoc.
  repeat split; try assumption.
  destruct rest; simpl; [now rewrite Hc | exact Hn].
Qed.

Lemma contains_word_extend (w s : str) (c : ascii) (y : str) :
  isword c = false ->
  contains_word w s = true -> contains_word w (s ++ c :: y) = true.
Proof.
  intros Hc. rewrite !contains_word_spec.
  intros (pre & u & post & -> & L & Hp & Hn).
  exists pre, u, (post ++ c :: y). rewrite <- !app_assoc.
  repeat split; try assumption.
  destruct post; simpl; [now rewrite Hc | exact Hn].
Qed.

Lemma contains_word_appended (k s : str) (c : ascii) (rest : str) :
  isword c = false -> isword_opt (head rest) = false ->
  contains_word k (s ++ c :: k ++ rest) = true.
Proof.
  intros Hc Hr. apply contains_word_spec.
  exists (s ++ [c]), k, rest. rewrite <- app_assoc.
  repeat split; try assumption.
  rewrite rev_app_distr. simpl. exact Hc.
Qed.

Lemma structure_ok_extend (s : str) (c : ascii) (y : str) :
  isword c = false -> blank s = false ->
  structure_ok s = true -> structure_ok (s ++ c :: y) = true.
Proof.
  intros Hc Hb. unfold structure_ok.
  rewrite !orb_true_iff, !andb_true_iff, !begins_with_word_here.
  rewrite lstrip_app_nonblank by assumption.
  intros [H|[H1 H2]].
  - left. now apply word_here_extend.
  - right. split; [now apply word_here_extend|].
    now apply contains_word_extend.
Qed.

(** X5.  A forbidden keyword added after a structurally valid query is
    always caught, whatever the query and whatever follows: if [s] passes
    the structure check, then [s], a character that is not a word
    character, a forbidden keyword and any rest that does not begin with a
    word character is rejected as unsafe. *)
Theorem chained_statement_is_rejected (s k rest : str) (c : ascii) :
  is_valid_query_structure (validate_sql s) = true ->
  In k forbidden_keywords ->
  isword c = false ->
  isword_opt (head rest) = false ->
  is_valid_query_structure (validate_sql (s ++ c :: k ++ rest)) = true
  /\ is_safe_for_readonly (validate_sql (s ++ c :: k ++ rest)) = false
  /\ rejected (validate_sql (s ++ c :: k ++ rest)) = true.
Proof.
  intros Hs Hk Hc Hr. apply structure_valid_inv in Hs as [Hb Hok].
  rewrite validate_sql_spec.
  rewrite blank_app, Hb. cbn [andb].
  rewrite (structure_ok_extend s c (k ++ rest) Hc Hb Hok).
  destruct (find _ forbidden_keywords) eqn:F; [now repeat split|].
  pose proof (find_none _ _ F k Hk) as N. cbn beta in N.
  now rewrite contains_word_appended in N.
Qed.

(** A semicolon and a TRUNCATE after a query with a CTE. *)
Lemma chained_statement_is_rejected_witness :
  is_valid_query_structure
    (validate_sql (py "with x as (select 1) select * from x"
                   ++ ";"%char :: py "TRUNCATE" ++ py " TABLE t")) = true
  /\ is_safe_for_readonly
       (validate_sql (py "with x as (select 1) select * from x"
                      ++ ";"%char :: py "TRUNCATE" ++ py " TABLE t")) = false
  /\ rejected
       (validate_sql (py "with x as (select 1) select * from x"
                      ++ ";"%char :: py "TRUNCATE" ++ py " TABLE t")) = true.
Proof.
  exact (chained_statement_is_rejected
           (py "with x as (select 1) select * from x") (py "TRUNCATE")
           (py " TABLE t") ";"%char eq_refl
           ltac:(vm_compute; tauto) eq_refl eq_refl).
Defined.

End ValidatorGate.

(** ** The generator and the executor as callers see them *)
Section GeneratorExecutor.
Import SqlGen Executor.

Lemma strip_within (s : str) :
  exists before after, s = before ++ strip s ++ after.
Proof. eexists. eexists. apply strip_split. Qed.

Lemma within_trans (a b c : str) :
  (exists p q, b = p ++ a ++ q) -> (exists p q, c = p ++ b ++ q) ->
  exists p q, c = p ++ a ++ q.
Proof.
  intros (p1 & q1 & ->) (p2 & q2 & ->). exists (p2 ++ p1), (q1 ++ q2).
  now rewrite <- !app_assoc.
Qed.

Lemma slice_from_within (n : nat) (s : str) :
  exists p q, s = p ++ slice_from n s ++ q.
Proof.
  exists (firstn n s), []. unfold slice_from.
  now rewrite app_nil_r, firstn_skipn.
Qed.

Lemma slice_drop_last_within (n : nat) (s : str) :
  exists p q, s = p ++ slice_drop_last n s ++ q.
Proof.
  exists [], (skipn (length s - n) s). unfold slice_drop_last.
  simpl. now rewrite firstn_skipn.
Qed.

Lemma within_refl (s : str) : exists p q, s = p ++ s ++ q.
Proof. exists [], []. now rewrite app_nil_r. Qed.

(** X6.  The clean-up only trims: what it returns stands, unaltered and in
    one piece, inside the model's reply; and it is never longer than the
    reply. *)
Theorem clean_up_only_trims (text : str) :
  (exists before after, text = before ++ clean_generated_sql text ++ after)
  /\ length (clean_generated_sql text) <= length text.
Proof.
  assert (W : exists p q, text = p ++ clean_generated_sql text ++ q).
  { unfold clean_generated_sql.
    eapply within_trans; [apply strip_within|].
    eapply within_trans;
      [destruct (endswith fence _);
         [apply slice_drop_last_within | apply within_refl]|].
    eapply within_trans; [|apply strip_within].
    destruct (startswith fence_sql (strip text));
      [apply slice_from_within|].
    destruct (startswith fence (strip text));
      [apply slice_from_within | apply within_refl]. }
  split; [exact W|].
  destruct W as (p & q & E). rewrite E at 2. rewrite !length_app. lia.
Qed.

(** X7.  [generate_sql_from_nlp] lets no library exception out: it returns
    a text with no whitespace around it, or raises an [HTTPException] whose
    status is 503 (Vertex AI not initialised) or 500, with a detail that is
    not empty. *)
Theorem generator_contract (svc : services) (table_schema_info q : str) :
  match generate_sql_from_nlp svc table_schema_info q with
  | Returns generated_sql => strip generated_sql = generated_sql
  | Raises (HTTPException status_code detail) =>
      (status_code = 503 <-> vertex_ai_initialized svc = false)
      /\ (status_code = 500 <-> vertex_ai_initialized svc = true)
      /\ truthy detail = true
  | Raises (Exc _) => False
  end.
Proof.
  unfold generate_sql_from_nlp.
  destruct (vertex_ai_initialized svc); cbn [negb].
  2: { repeat split; intros; try discriminate; reflexivity. }
  destruct (sql_model svc) as [e|].
  { repeat split; intros; try discriminate; reflexivity. }
  destruct (sql_generate_content svc _) as [response|e];
    cbn [bind try_except].
  - destruct (response_text response) as [text|e]; cbn [bind].
    + unfold clean_generated_sql. apply strip_strip.
    + repeat split; intros; try discriminate; try reflexivity.
      unfold sql_error_detail. now destruct (is_value_error e).
  - repeat split; intros; try discriminate; try reflexivity.
    unfold sql_error_detail. now destruct (is_value_error e).
Qed.

(** X8.  [execute_bigquery_query] sends the query to BigQuery exactly when
    the client is there and the query is not empty, and then once; it
    returns one record for each row BigQuery returned, or raises an
    [HTTPException] with status 503 (no client), 400 (empty query) or 500
    (BigQuery failed), and nothing else. *)
Theorem executor_contract (svc : services) (sql_query : str)
    (sent : list str) :
  snd (execute_bigquery_query svc sql_query sent)
  = (if bq_client_present svc && truthy sql_query
     then sent ++ [sql_query] else sent)
  /\ match fst (execute_bigquery_query svc sql_query sent) with
     | Returns records =>
         exists rows,
           bq_query_result svc sql_query = Returns rows
           /\ records = map coerce_row rows
           /\ length records = length rows
     | Raises (HTTPException status_code detail) =>
         (status_code = 503 /\ bq_client_present svc = false)
         \/ (status_code = 400 /\ sql_query = [])
         \/ (status_code = 500
             /\ exists e, bq_query_result svc sql_query = Raises e
                          /\ detail = bq_error_message e)
     | Raises (Exc _) => False
     end.
Proof.
  unfold execute_bigquery_query.
  destruct (bq_client_present svc); cbn [negb andb fst snd].
  2: { split; [reflexivity|]. left. now split. }
  destruct sql_query as [|c t]; cbn [truthy negb fst snd].
  { split; [reflexivity|]. right. left. now split. }
  split; [reflexivity|].
  destruct (bq_query_result svc (c :: t)) as [rows|e];
    cbn [bind try_except].
  - exists rows. repeat split. apply length_map.
  - right. right. split; [reflexivity|]. now exists e.
Qed.

End GeneratorExecutor.

(** ** The [/ask] handler on every path *)
Section HandlerPaths.
Import SqlGen Executor Summarizer Endpoint.

Lemma truthy_app_l (a b : str) : truthy a = true -> truthy (a ++ b) = true.
Proof. now destruct a. Qed.

Lemma sql_error_detail_truthy (e : pyexn) :
  truthy (sql_error_detail e) = true.
Proof. unfold sql_error_detail. now destruct (is_value_error e). Qed.

Lemma generator_detail_truthy (svc : services) (t q : str)
    (status_code : nat) (detail : str) :
  generate_sql_from_nlp svc t q = Raises (HTTPException status_code detail) ->
  truthy detail = true.
Proof.
  unfold generate_sql_from_nlp.
  destruct (vertex_ai_initialized svc); cbn [negb].
  2: { intros [= _ <-]. reflexivity. }
  destruct (sql_model svc) as [e|].
  { intros [= _ <-]. reflexivity. }
  destruct (sql_generate_content svc _) as [response|e];
    cbn [bind try_except].
  - destruct (response_text response) as [text|e]; cbn [bind].
    + discriminate.
    + intros [= _ <-]. apply sql_error_detail_truthy.
  - intros [= _ <-]. apply sql_error_detail_truthy.
Qed.

Lemma executor_detail_truthy (svc : services) (sql : str) (sent : list str)
    (status_code : nat) (detail : str) :
  fst (execute_bigquery_query svc sql sent)
  = Raises (HTTPException status_code detail) ->
  truthy detail = true.
Proof.
  unfold execute_bigquery_query.
  destruct (bq_client_present svc); cbn [negb fst].
  2: { intros [= _ <-]. reflexivity. }
  destruct (truthy sql); cbn [negb fst].
  2: { intros [= _ <-]. reflexivity. }
  destruct (bq_query_result svc sql); cbn [bind try_except].
  - discriminate.
  - intros [= _ <-]. reflexivity.
Qed.

Lemma summary_text_truthy (svc : services) (q sql : str)
    (results : option (list record)) (max_rows : nat) (text : str) :
  generate_business_summary svc q sql results max_rows = Returns text ->
  truthy text = true.
Proof.
  unfold generate_business_summary.
  destruct (vertex_ai_initialized svc); cbn [negb].
  2: { intros [= <-]. reflexivity. }
  destruct results as [rows|].
  2: { intros [= <-]. reflexivity. }
  destruct (summary_model svc).
  { intros [= <-]. reflexivity. }
  destruct (summary_generate_content svc _) as [response|e];
    cbn [bind try_except].
  2: { intros [= <-]. reflexivity. }
  destruct (response_text response) as [t|e]; cbn [bind].
  2: { intros [= <-]. reflexivity. }
  destruct (truthy (strip t)) eqn:T; intros [= <-];
    [assumption | reflexivity].
Qed.

Lemma rejection_message_truthy (v : verdict) :
  truthy (rejection_message v) = true.
Proof.
  unfold rejection_message.
  now destruct (truthy (validation_error_message v)) eqn:T.
Qed.

Lemma on_exception_answer_truthy (q : str) (sql : option str)
    (rs : option (list record)) (df : option DataTableContent)
    (e : raised) :
  (forall c d, e = HTTPException c d -> truthy d = true) ->
  truthy (answer (on_exception q sql rs df e)) = true.
Proof.
  intros H. destruct e as [c d|e]; cbn [on_exception answer].
  - now apply (H c d).
  - reflexivity.
Qed.

Lemma on_exception_query (q : str) (sql : option str)
    (rs : option (list record)) (df : option DataTableContent)
    (e : raised) :
  query (on_exception q sql rs df e) = q.
Proof. now destruct e. Qed.

Lemma accepted_truthy (s : str) :
  rejected (validate_sql s) = false -> truthy s = true.
Proof.
  unfold validate_sql, validate_with. destruct (truthy s); [reflexivity|].
  cbn [negb orb]. discriminate.
Qed.

(** X9.  The handler answers 503 exactly when one of the two clients is
    missing, and then it has contacted nothing.  In every other case, and
    whatever the model and BigQuery do, it answers 200, repeats the
    question, and gives an answer that is not empty. *)
Theorem handler_always_answers (svc : services) (nlp_question : str)
    (sent : list str) :
  match ask_nlp_query svc nlp_question sent with
  | (Http200 body, _) =>
      vertex_ai_initialized svc = true
      /\ bq_client_present svc = true
      /\ query body = nlp_question
      /\ truthy (answer body) = true
  | (HttpError status_code detail, sent') =>
      status_code = 503
      /\ (vertex_ai_initialized svc = false \/ bq_client_present svc = false)
      /\ sent' = sent
  end.
Proof.
  unfold ask_nlp_query.
  destruct (vertex_ai_initialized svc); cbn [negb]; [|auto].
  destruct (bq_client_present svc) eqn:Hb; cbn [negb]; [|auto].
  unfold get_bigquery_table_schema. rewrite Hb. cbn [negb].
  destruct (generate_sql_from_nlp svc _ nlp_question) as [sql|e] eqn:G.
  2: { repeat split; [apply on_exception_query|].
       apply on_exception_answer_truthy. intros c d ->.
       exact (generator_detail_truthy _ _ _ _ _ G). }
  cbn zeta. destruct (rejected (validate_sql sql)).
  { repeat split. apply rejection_message_truthy. }
  destruct (execute_bigquery_query svc sql sent) as [[rows|e] sent'] eqn:X.
  2: { repeat split; [apply on_exception_query|].
       apply on_exception_answer_truthy. intros c d ->.
       apply (executor_detail_truthy svc sql sent c d). now rewrite X. }
  destruct (generate_business_summary _ _ _ _ _) as [text|e] eqn:S.
  - repeat split. exact (summary_text_truthy _ _ _ _ _ _ S).
  - destruct (summary_never_raises svc nlp_question sql (Some rows)
                default_max_rows) as [text T].
    rewrite T in S. discriminate.
Qed.

(** X10.  A 200 carries data only from a query that validation accepted and
    BigQuery executed: then the SQL in the response is the query that was
    sent, the one query of the request, the records are the coerced rows
    BigQuery returned for it, and the column names are those of its first
    row.  A response without SQL has contacted BigQuery with nothing. *)
Theorem response_data_provenance (svc : services) (nlp_question : str)
    (sent sent' : list str) (body : QueryResponse) :
  ask_nlp_query svc nlp_question sent = (Http200 body, sent') ->
  match dataframe_content body with
  | Some df =>
      exists generated_sql rows,
        sql_query body = Some generated_sql
        /\ rejected (validate_sql generated_sql) = false
        /\ sent' = sent ++ [generated_sql]
        /\ bq_query_result svc generated_sql = Returns rows
        /\ data df = map coerce_row rows
        /\ columns df = match rows with
                        | first_row :: _ => map fst first_row
                        | [] => []
                        end
  | None => True
  end
  /\ (sql_query body = None ->
      sent' = sent /\ dataframe_content body = None).
Proof.
  unfold ask_nlp_query.
  destruct (vertex_ai_initialized svc); cbn [negb]; [|discriminate].
  destruct (bq_client_present svc) eqn:Hb; cbn [negb]; [|discriminate].
  unfold get_bigquery_table_schema. rewrite Hb. cbn [negb].
  destruct (generate_sql_from_nlp svc _ nlp_question) as [sql|e].
  2: { intros [= <- <-]. destruct e; cbn; auto. }
  cbn zeta. destruct (rejected (validate_sql sql)) eqn:R.
  { intros [= <- <-]. cbn. split; [exact I | discriminate]. }
  pose proof (accepted_truthy sql R) as T.
  unfold execute_bigquery_query. rewrite Hb, T. cbn [negb].
  destruct (bq_query_result svc sql) as [rows|e] eqn:Q;
    cbn [bind try_except].
  2: { intros [= <- <-]. cbn. split; [exact I | discriminate]. }
  assert (D : dataframe_content
                (MkQueryResponse nlp_question (Some sql)
                   (Some (table_of (map coerce_row rows))) []) = Some
                (table_of (map coerce_row rows))) by reflexivity.
  assert (P : exists generated_sql rows0,
             Some sql = Some generated_sql
             /\ rejected (validate_sql generated_sql) = false
             /\ sent ++ [sql] = sent ++ [generated_sql]
             /\ bq_query_result svc generated_sql = Returns rows0
             /\ data (table_of (map coerce_row rows)) = map coerce_row rows0
             /\ columns (table_of (map coerce_row rows))
                = match rows0 with
                  | first_row :: _ => map fst first_row
                  | [] => []
                  end).
  { exists sql, rows. repeat split; try assumption.
    destruct rows as [|r rs]; [reflexivity|].
    cbn [map table_of columns]. unfold coerce_row. rewrite map_map.
    reflexivity. }
  destruct (generate_business_summary _ _ _ _ _) as [text|e].
  - intros [= <- <-]. cbn [dataframe_content sql_query].
    split; [exact P | discriminate].
  - intros [= <- <-]. destruct e; cbn [on_exception dataframe_content sql_query];
      (split; [exact P | discriminate]).
Qed.

(** The end-to-end scenario: the data of the response are the row BigQuery
    returned for the query sent. *)
Lemma response_data_provenance_witness :
  exists generated_sql rows,
    Some Faults.sum_sql = Some generated_sql
    /\ rejected (validate_sql generated_sql) = false
    /\ [Faults.sum_sql] = [] ++ [generated_sql]
    /\ bq_query_result Faults.sum_services generated_sql = Returns rows
    /\ [[(py "total", SFloat (PyTypes.dyadic 1000 0))]] = map coerce_row rows
    /\ [py "total"] = match rows with
                      | first_row :: _ => map fst first_row
                      | [] => []
                      end.
Proof.
  exact (proj1 (response_data_provenance Faults.sum_services
                  (py "total sales last week") [] [Faults.sum_sql]
                  {| query := py "total sales last week";
                     sql_query := Some Faults.sum_sql;
                     dataframe_content :=
                       Some {| data := [[(py "total",
                                          SFloat (PyTypes.dyadic 1000 0))]];
                               columns := [py "total"] |};
                     answer := py "Sales were 1000." |}
                  ltac:(vm_compute; reflexivity))).
Defined.

(** X11.  A reply of the model that the clean-up leaves nothing of (a blank
    text, or fences with nothing between them) is answered with "LLM
    returned an empty SQL query.", an empty [sql_query] and no data, and
    nothing is sent to BigQuery. *)
Theorem empty_reply_response (svc : services) (nlp_question text : str)
    (response : llm_response) (sent : list str) :
  vertex_ai_initialized svc = true ->
  bq_client_present svc = true ->
  sql_model svc = None ->
  sql_generate_content svc
    (sql_prompt svc (schema_description svc) nlp_question)
  = Returns response ->
  response_text response = Returns text ->
  clean_generated_sql text = [] ->
  ask_nlp_query svc nlp_question sent
  = (Http200 {| query := nlp_question;
                sql_query := Some [];
                dataframe_content := None;
                answer := py "LLM returned an empty SQL query." |},
     sent).
Proof.
  intros Hv Hb Hm Hg Ht Hc.
  unfold ask_nlp_query, get_bigquery_table_schema, generate_sql_from_nlp.
  rewrite Hv, Hb, Hm. cbn [negb]. rewrite Hg. cbn [bind try_except].
  rewrite Ht. cbn [bind]. rewrite Hc. reflexivity.
Qed.

(** The model answers with an empty code block. *)
Lemma empty_reply_response_witness :
  ask_nlp_query
    (Faults.services_with
       (Returns (WithParts (Returns (py "```sql" ++ nl ++ py "```"))))
       (Returns []) (Returns (WithoutParts None)))
    (py "anything") []
  = (Http200 {| query := py "anything";
                sql_query := Some [];
                dataframe_content := None;
                answer := py "LLM returned an empty SQL query." |},
     []).
Proof.
  exact (empty_reply_response
           (Faults.services_with
              (Returns (WithParts (Returns (py "```sql" ++ nl ++ py "```"))))
              (Returns []) (Returns (WithoutParts None)))
           (py "anything") (py "```sql" ++ nl ++ py "```")
           (WithParts (Returns (py "```sql" ++ nl ++ py "```"))) []
           eq_refl eq_refl eq_refl eq_refl eq_refl eq_refl).
Defined.

(** X12.  When the call of the model for the SQL fails, the handler still
    answers 200: without SQL, without data, with the error as the answer
    ("Error generating SQL from LLM: ...", or "LLM failed to generate valid
    SQL content: ..." for a [ValueError]), and BigQuery is not contacted. *)
Theorem generation_failure_response (svc : services) (nlp_question : str)
    (e : pyexn) (sent : list str) :
  vertex_ai_initialized svc = true ->
  bq_client_present svc = true ->
  sql_model svc = None ->
  sql_generate_content svc
    (sql_prompt svc (schema_description svc) nlp_question)
  = Raises e ->
  ask_nlp_query svc nlp_question sent
  = (Http200 {| query := nlp_question;
                sql_query := None;
                dataframe_content := None;
                answer := sql_error_detail e |},
     sent)
  /\ exists rest,
       sql_error_detail e
       = (if is_value_error e
          then py "LLM failed to generate valid SQL content: "
          else py "Error generating SQL from LLM: ") ++ exn_str e ++ rest.
Proof.
  intros Hv Hb Hm Hg. split.
  - unfold ask_nlp_query, get_bigquery_table_schema, generate_sql_from_nlp.
    rewrite Hv, Hb, Hm. cbn [negb]. rewrite Hg. reflexivity.
  - unfold sql_error_detail. destruct (is_value_error e).
    + exists []. now rewrite app_nil_r.
    + eexists. reflexivity.
Qed.

(** The model service times out. *)
Lemma generation_failure_response_witness :
  ask_nlp_query
    (Faults.services_with (Raises (Faults.failure (py "Deadline exceeded")))
       (Returns []) (Returns (WithoutParts None)))
    (py "total sales") []
  = (Http200 {| query := py "total sales";
                sql_query := None;
                dataframe_content := None;
                answer := py "Error generating SQL from LLM: Deadline exceeded" |},
     []).
Proof.
  exact (proj1 (generation_failure_response
                  (Faults.services_with
                     (Raises (Faults.failure (py "Deadline exceeded")))
                     (Returns []) (Returns (WithoutParts None)))
                  (py "total sales") (Faults.failure (py "Deadline exceeded"))
                  [] eq_refl eq_refl eq_refl eq_refl)).
Defined.

(** X13.  Once validation has accepted the generated SQL, the query is sent
    to BigQuery, once.  If BigQuery fails, the response keeps the SQL, has
    no data, and its answer begins "Error executing BigQuery query: ".  If
    BigQuery returns rows, the response carries their records and column
    names, whatever becomes of the summary. *)
Theorem execution_outcome_response (svc : services)
    (nlp_question generated_sql : str) (sent : list str) :
  vertex_ai_initialized svc = true ->
  bq_client_present svc = true ->
  generate_sql_from_nlp svc (schema_description svc) nlp_question
  = Returns generated_sql ->
  rejected (validate_sql generated_sql) = false ->
  snd (ask_nlp_query svc nlp_question sent) = sent ++ [generated_sql]
  /\ match bq_query_result svc generated_sql with
     | Raises e =>
         fst (ask_nlp_query svc nlp_question sent)
         = Http200 {| query := nlp_question;
                      sql_query := Some generated_sql;
                      dataframe_content := None;
                      answer := py "Error executing BigQuery query: "
                                ++ exn_str e
                                ++ match exn_bq_detail e with
                                   | Some d => py "; Details: " ++ d
                                   | None => []
                                   end |}
     | Returns rows =>
         exists business_summary,
           generate_business_summary svc nlp_question generated_sql
             (Some (map coerce_row rows)) 10
           = Returns business_summary
           /\ fst (ask_nlp_query svc nlp_question sent)
              = Http200 {| query := nlp_question;
                           sql_query := Some generated_sql;
                           dataframe_content :=
                             Some {| data := map coerce_row rows;
                                     columns :=
                                       match rows with
                                       | first_row :: _ => map fst first_row
                                       | [] => []
                                       end |};
                           answer := business_summary |}
     end.
Proof.
  intros Hv Hb Hg Hr. pose proof (accepted_truthy _ Hr) as T.
  unfold ask_nlp_query, get_bigquery_table_schema.
  rewrite Hv, Hb. cbn [negb]. rewrite Hg. cbn zeta. rewrite Hr.
  unfold execute_bigquery_query. rewrite Hb, T. cbn [negb].
  destruct (bq_query_result svc generated_sql) as [rows|e];
    cbn [bind try_except].
  2: { split; reflexivity. }
  destruct (summary_never_raises svc nlp_question generated_sql
              (Some (map coerce_row rows)) default_max_rows) as [text S].
  rewrite S. split; [reflexivity|]. exists text. split; [exact S|].
  cbn [fst]. unfold table_of. do 3 f_equal.
  destruct rows as [|r rs]; [reflexivity|].
  cbn [map]. unfold coerce_row. now rewrite map_map.
Qed.

(** BigQuery refuses the query. *)
Lemma execution_outcome_response_witness :
  snd (ask_nlp_query
         (Faults.services_with (Returns (WithParts (Returns Faults.sum_sql)))
            (Raises (Faults.failure (py "Not found: Table t")))
            (Returns (WithoutParts None)))
         (py "total sales") [])
  = [] ++ [Faults.sum_sql]
  /\ fst (ask_nlp_query
            (Faults.services_with
               (Returns (WithParts (Returns Faults.sum_sql)))
               (Raises (Faults.failure (py "Not found: Table t")))
               (Returns (WithoutParts None)))
            (py "total sales") [])
     = Http200 {| query := py "total sales";
                  sql_query := Some Faults.sum_sql;
                  dataframe_content := None;
                  answer := py "Error executing BigQuery query: "
                            ++ py "Not found: Table t" ++ [] |}.
Proof.
  exact (execution_outcome_response
           (Faults.services_with
              (Returns (WithParts (Returns Faults.sum_sql)))
              (Raises (Faults.failure (py "Not found: Table t")))
              (Returns (WithoutParts None)))
           (py "total sales") Faults.sum_sql []
           eq_refl eq_refl eq_refl ltac:(vm_compute; reflexivity)).
Defined.

End HandlerPaths.

(** ** main.py: the conversion of protobuf values *)
Section Conversion.
Import ProtoStruct Json.

Lemma convert_marshalled (j : json) :
  _convert_proto_struct_to_dict (marshalled j) = plain j.
Proof.
  revert j. fix IH 1. intros [ | b | x | s | l | m]; cbn; try reflexivity.
  - f_equal.
    induction l as [|a l IHl]; cbn [map]; [reflexivity|].
    rewrite IH. f_equal. exact IHl.
  - f_equal.
    induction m as [|[k a] m IHm]; cbn [map fst snd]; [reflexivity|].
    rewrite IH. f_equal. exact IHm.
Qed.

Lemma convert_well_known (j : json) :
  _convert_proto_struct_to_dict (well_known j) = plain j.
Proof.
  revert j. fix IH 1. intros [ | b | x | s | l | m]; cbn; try reflexivity.
  - f_equal.
    induction l as [|a l IHl]; cbn [map]; [reflexivity|].
    rewrite IH. f_equal. exact IHl.
  - f_equal.
    induction m as [|[k a] m IHm]; cbn [map fst snd]; [reflexivity|].
    rewrite IH. f_equal. exact IHm.
Qed.


End Conversion.

(** ** main.py: the answer of [ask_question] and the second reasoning *)
Section AnswerText.
Import ProtoStruct Answer.

(** X15.  The answer [ask_question] settles on is never empty and has no
    whitespace around it.  The text parts count only through their
    concatenation: when that is blank, the answer is the placeholder that
    no text at all would get, and otherwise it is the stripped text,
    whatever chart, table or query came with it.  An empty chart dict counts
    as no chart. *)
Theorem answer_never_empty (accumulated_final_text_parts : list str)
    (chart : option (list (str * pyjson))) (dataframe : bool)
    (sql : option str) :
  truthy (final_text_reply accumulated_final_text_parts chart dataframe sql)
  = true
  /\ strip (final_text_reply accumulated_final_text_parts chart dataframe sql)
     = final_text_reply accumulated_final_text_parts chart dataframe sql
  /\ final_text_reply accumulated_final_text_parts chart dataframe sql
     = (if blank (concat accumulated_final_text_parts)
        then final_text_reply [] chart dataframe sql
        else strip (concat accumulated_final_text_parts))
  /\ final_text_reply accumulated_final_text_parts (Some []) dataframe sql
     = final_text_reply accumulated_final_text_parts None dataframe sql.
Proof.
  unfold final_text_reply.
  pose proof (truthy_strip (concat accumulated_final_text_parts)) as T.
  destruct (blank (concat accumulated_final_text_parts));
    cbn [negb] in T; rewrite T; cbn [negb].
  - repeat split;
      destruct (dict_truthy chart); try reflexivity;
      destruct dataframe; try reflexivity;
      destruct (dict_truthy sql); reflexivity.
  - repeat split; [exact T | apply strip_strip].
Qed.

End AnswerText.

Section SecondReasoning.
Import Reasoning.

Lemma row_lines_raises (svc : reasoning_services) (rows : list row)
    (row_idx : nat) (e : pyexn) :
  row_lines svc row_idx rows = Raises e ->
  exists r, In r rows /\ json_dumps svc r = Raises e.
Proof.
  revert row_idx. induction rows as [|r rows IH]; intros row_idx;
    cbn [row_lines]; [discriminate|].
  destruct (json_dumps svc r) as [dumped|e'] eqn:D; cbn [bind].
  - destruct (row_lines svc (S row_idx) rows) as [rest|e'] eqn:R; cbn [bind];
      [discriminate|].
    intros [= ->]. destruct (IH _ R) as (r' & Hin & Hr').
    exists r'. split; [now right | exact Hr'].
  - intros [= ->]. exists r. split; [now left | exact D].
Qed.

Lemma context_data_str_raises (svc : reasoning_services)
    (content : option df_content) (max_rows : nat) (e : pyexn) :
  context_data_str svc content max_rows = Raises e ->
  exists c rows r,
    content = Some c /\ df_data c = Some rows
    /\ In r (firstn max_rows rows) /\ json_dumps svc r = Raises e.
Proof.
  unfold context_data_str.
  destruct content as [c|]; [|discriminate].
  destruct (df_data c) as [[|r rs]|] eqn:D; try discriminate.
  cbn [length Nat.ltb Nat.leb].
  destruct (firstn max_rows (r :: rs)) as [|first_row shown] eqn:F;
    cbn [bind]; [discriminate|].
  destruct (row_lines svc 0 (first_row :: shown)) as [lines|e'] eqn:L;
    cbn [bind]; [discriminate|].
  intros [= ->]. destruct (row_lines_raises _ _ _ _ L) as (r' & Hin & Hr').
  exists c, (r :: rs), r'. rewrite F. now repeat split.
Qed.

Lemma cites_initial (head initial tail : str) :
  exists before after,
    head ++ quoted initial ++ tail = before ++ quoted initial ++ after.
Proof. now exists head, tail. Qed.

(** X16.  The second reasoning step never answers with an empty text, and
    never loses DataQnA's answer: what it returns is either the stripped,
    non-empty text the model gave for the prompt built from the question,
    the query, the initial answer and the data, or a fallback that cites
    the initial answer between quotes.  It raises only when [json.dumps]
    raises on one of the rows it shows, which are among the first
    [max_rows_for_summary_context]. *)
Theorem reasoning_keeps_initial_answer (svc : reasoning_services)
    (nlp_question : str) (dataqna_sql_query : option str)
    (content : option df_content) (dataqna_initial_answer : str)
    (max_rows : nat) :
  match
    reason_on_dataqna_output_with_gemini svc nlp_question dataqna_sql_query
      content dataqna_initial_answer max_rows
  with
  | Returns text =>
      truthy text = true
      /\ ((exists context raw,
             context_data_str svc content max_rows = Returns context
             /\ generate_content_text svc
                  (summary_prompt svc nlp_question dataqna_sql_query
                     dataqna_initial_answer context)
                = Returns raw
             /\ text = strip raw)
          \/ exists before after,
               text = before ++ quoted dataqna_initial_answer ++ after)
  | Raises e =>
      vertex_ai_initialized svc = true
      /\ reasoning_model svc = None
      /\ exists c rows r,
           content = Some c /\ df_data c = Some rows
           /\ In r (firstn max_rows rows) /\ json_dumps svc r = Raises e
  end.
Proof.
  unfold reason_on_dataqna_output_with_gemini.
  destruct (vertex_ai_initialized svc); cbn [negb].
  2: { split; [reflexivity|]. right. apply cites_initial. }
  destruct (reasoning_model svc) as [e|].
  { split; [reflexivity|]. right. apply cites_initial. }
  destruct (context_data_str svc content max_rows) as [context|e] eqn:C;
    cbn [bind].
  2: { repeat split. exact (context_data_str_raises _ _ _ _ C). }
  destruct (generate_content_text svc _) as [raw|e] eqn:G;
    cbn [bind try_except].
  2: { split; [reflexivity|]. right. apply cites_initial. }
  destruct (truthy (strip raw)) eqn:T.
  - split; [exact T|]. left. now exists context, raw.
  - split; [reflexivity|]. right. apply cites_initial.
Qed.

End SecondReasoning.

(** ** main.py: conversations over several requests *)
Section Conversations.
Import DataQnA.

Implicit Types (h : gmap str (list message)) (c : str).

Lemma ask_question_clean (api : dataqna_api) h (q : str) c
    (items : list stream_item) :
  c <> [] ->
  build_request api (default [] (h !! c) ++ [UserMessage q]) = None ->
  call api (default [] (h !! c) ++ [UserMessage q])
  = Returns (items, Exhausted) ->
  Forall (fun it => handling it = None) items ->
  ask_question api h q (Some c)
  = (Answered (map container items),
     <[c := default [] (h !! c) ++ [UserMessage q] ++ map container items]> h).
Proof.
  intros Hc Hb Hcall Hitems. unfold ask_question.
  rewrite (id_truthy_nonempty c Hc), Hb, Hcall. cbn [bind fst snd].
  rewrite (consume_all items [] Hitems). reflexivity.
Qed.

(** X17.  [ask_question] never drops or shortens a history: whatever the
    service does, every conversation the map holds is still there after the
    call, with its old messages as a prefix of the new. *)
Theorem histories_only_grow (api : dataqna_api) h (q : str)
    (cid : option str) c (old : list message) :
  h !! c = Some old ->
  exists added,
    snd (ask_question api h q cid) !! c = Some (old ++ added).
Proof.
  intros Hold.
  destruct (ask_question_histories api h q cid)
    as [->|(c' & replies & Hc' & _ & ->)].
  - exists []. now rewrite app_nil_r.
  - destruct (decide (c' = c)) as [->|Hne].
    + rewrite lookup_insert_eq, Hold. cbn [default from_option id]. eauto.
    + rewrite lookup_insert_ne by exact Hne.
      exists []. now rewrite app_nil_r.
Qed.

(** A second exchange in conversation c1. *)
Lemma histories_only_grow_witness :
  exists added,
    snd (ask_question
           (Scenario.api_streaming
              [StreamItem (SystemMessage [py "42"]) None] Exhausted)
           ({[ py "c1" := [UserMessage (py "hi")] ]}
              : gmap str (list message))
           (py "total?") (Some (py "c1")))
    !! py "c1"
    = Some ([UserMessage (py "hi")] ++ added).
Proof.
  refine (histories_only_grow
            (Scenario.api_streaming
               [StreamItem (SystemMessage [py "42"]) None] Exhausted)
            ({[ py "c1" := [UserMessage (py "hi")] ]}
               : gmap str (list message))
            (py "total?") (Some (py "c1")) (py "c1") [UserMessage (py "hi")]
            _).
  vm_compute. reflexivity.
Defined.

(** X18.  Two questions in the same conversation: the second call sends the
    service the history, the first question, the replies to it and the
    second question, in this order, and the history afterwards holds both
    exchanges. *)
Theorem exchanges_accumulate (api : dataqna_api) h (q1 q2 : str) c
    (items1 items2 : list stream_item) :
  c <> [] ->
  let sent1 := default [] (h !! c) ++ [UserMessage q1] in
  let sent2 := sent1 ++ map container items1 ++ [UserMessage q2] in
  build_request api sent1 = None ->
  call api sent1 = Returns (items1, Exhausted) ->
  Forall (fun it => handling it = None) items1 ->
  build_request api sent2 = None ->
  call api sent2 = Returns (items2, Exhausted) ->
  Forall (fun it => handling it = None) items2 ->
  ask_question api (snd (ask_question api h q1 (Some c))) q2 (Some c)
  = (Answered (map container items2),
     <[c := sent2 ++ map container items2]> h).
Proof.
  intros Hc sent1 sent2 Hb1 Hc1 Hi1 Hb2 Hc2 Hi2.
  rewrite (ask_question_clean api h q1 c items1 Hc Hb1 Hc1 Hi1).
  cbn [snd].
  assert (E : default []
                (<[c := default [] (h !! c) ++ [UserMessage q1]
                        ++ map container items1]> h !! c)
              ++ [UserMessage q2] = sent2).
  { rewrite lookup_insert_eq. cbn [default from_option id].
    unfold sent2, sent1. now rewrite <- !app_assoc. }
  rewrite (ask_question_clean api _ q2 c items2 Hc); rewrite ?E;
    try assumption.
  rewrite insert_insert_eq. f_equal. f_equal.
  rewrite <- E at 1. now rewrite <- !app_assoc.
Qed.

(** Two questions in a new conversation c1; the service answers 42 each
    time. *)
Lemma exchanges_accumulate_witness :
  ask_question
    (Scenario.api_streaming
       [StreamItem (SystemMessage [py "42"]) None] Exhausted)
    (snd (ask_question
            (Scenario.api_streaming
               [StreamItem (SystemMessage [py "42"]) None] Exhausted)
            ∅ (py "total?") (Some (py "c1"))))
    (py "and last week?") (Some (py "c1"))
  = (Answered [SystemMessage [py "42"]],
     <[ py "c1" :=
          ((default [] ((∅ : gmap str (list message)) !! py "c1")
            ++ [UserMessage (py "total?")])
           ++ map container [StreamItem (SystemMessage [py "42"]) None]
           ++ [UserMessage (py "and last week?")])
          ++ map container [StreamItem (SystemMessage [py "42"]) None] ]> ∅).
Proof.
  exact (exchanges_accumulate
           (Scenario.api_streaming
              [StreamItem (SystemMessage [py "42"]) None] Exhausted)
           ∅ (py "total?") (py "and last week?") (py "c1")
           [StreamItem (SystemMessage [py "42"]) None]
           [StreamItem (SystemMessage [py "42"]) None]
           ltac:(discriminate) eq_refl eq_refl ltac:(repeat constructor)
           eq_refl eq_refl ltac:(repeat constructor)).
Defined.

End Conversations.

(** ** main.py: the [/ask] handler and the conversation id *)
Section AgentRequests.
Import DataQnA Agent.

Implicit Types (h : gmap str (list message)) (c : str).

Lemma current_conv_id_nonempty (request_payload : QuestionRequest)
    (uuid4 : str) :
  uuid4 <> [] -> current_conv_id request_payload uuid4 <> [].
Proof.
  intros Hu. unfold current_conv_id.
  destruct (id_truthy (conversation_id request_payload)) as [c|] eqn:E;
    [|exact Hu].
  now apply id_truthy_some in E.
Qed.



(** X20.  A request without a conversation id is stateless for the client,
    not for the server: the service is sent the question alone, but the
    exchange is stored under the generated id, so the map of histories
    grows by one entry with every such request that is answered. *)
Theorem request_without_id_is_recorded (api : dataqna_api) h
    (request_payload : QuestionRequest) (uuid4 : str)
    (items : list stream_item) :
  id_truthy (conversation_id request_payload) = None ->
  uuid4 <> [] ->
  h !! uuid4 = None ->
  build_request api [UserMessage (question request_payload)] = None ->
  call api [UserMessage (question request_payload)]
  = Returns (items, Exhausted) ->
  Forall (fun it => handling it = None) items ->
  ask_data_agent (Some api) h request_payload uuid4
  = (uuid4, Some (Answered (map container items)),
     <[uuid4 := [UserMessage (question request_payload)]
                ++ map container items]> h)
  /\ size (snd (ask_data_agent (Some api) h request_payload uuid4))
     = S (size h).
Proof.
  intros Hid Hu Hfresh Hb Hcall Hitems.
  assert (E : ask_data_agent (Some api) h request_payload uuid4
              = (uuid4, Some (Answered (map container items)),
                 <[uuid4 := [UserMessage (question request_payload)]
                            ++ map container items]> h)).
  { unfold ask_data_agent, current_conv_id. rewrite Hid.
    rewrite bool_decide_eq_false_2 by (intros H; now apply H).
    rewrite andb_false_r.
    rewrite (ask_question_clean api h (question request_payload) uuid4 items
               Hu); rewrite ?Hfresh; cbn [default from_option id app];
      try assumption.
    reflexivity. }
  split; [exact E|]. rewrite E. cbn [snd].
  now apply map_size_insert_None.
Qed.

(** A first request without an id, next to the conversation c1. *)
Lemma request_without_id_is_recorded_witness :
  ask_data_agent
    (Some (Scenario.api_streaming
             [StreamItem (SystemMessage [py "42"]) None] Exhausted))
    ({[ py "c1" := [UserMessage (py "hi")] ]} : gmap str (list message))
    (MkQuestionRequest (py "total?") None false false true) (py "7f1c")
  = (py "7f1c", Some (Answered [SystemMessage [py "42"]]),
     <[ py "7f1c" := [UserMessage (py "total?")]
                     ++ [SystemMessage [py "42"]] ]>
       ({[ py "c1" := [UserMessage (py "hi")] ]}
          : gmap str (list message)))
  /\ size (snd (ask_data_agent
                  (Some (Scenario.api_streaming
                           [StreamItem (SystemMessage [py "42"]) None]
                           Exhausted))
                  ({[ py "c1" := [UserMessage (py "hi")] ]}
                     : gmap str (list message))
                  (MkQuestionRequest (py "total?") None false false true)
                  (py "7f1c")))
     = S (size ({[ py "c1" := [UserMessage (py "hi")] ]}
                  : gmap str (list message))).
Proof.
  refine (request_without_id_is_recorded
            (Scenario.api_streaming
               [StreamItem (SystemMessage [py "42"]) None] Exhausted)
            ({[ py "c1" := [UserMessage (py "hi")] ]}
               : gmap str (list message))
            (MkQuestionRequest (py "total?") None false false true)
            (py "7f1c") [StreamItem (SystemMessage [py "42"]) None]
            eq_refl _ _ eq_refl eq_refl _).
  - discriminate.
  - vm_compute. reflexivity.
  - repeat constructor.
Defined.

(** X21.  A request that carries an id and the reset flag starts the
    conversation afresh: the service is sent the question alone, and the
    history of the id afterwards is this one exchange, whatever it held
    before.  (With no id the flag has no effect.) *)
Theorem reset_request_starts_afresh (api : dataqna_api) h
    (request_payload : QuestionRequest) (uuid4 : str) c
    (items : list stream_item) :
  conversation_id request_payload = Some c ->
  c <> [] ->
  reset_conversation request_payload = true ->
  build_request api [UserMessage (question request_payload)] = None ->
  call api [UserMessage (question request_payload)]
  = Returns (items, Exhausted) ->
  Forall (fun it => handling it = None) items ->
  ask_data_agent (Some api) h request_payload uuid4
  = (c, Some (Answered (map container items)),
     <[c := [UserMessage (question request_payload)]
            ++ map container items]> h).
Proof.
  intros Hid Hc Hr Hb Hcall Hitems.
  unfold ask_data_agent, current_conv_id.
  rewrite Hid, (id_truthy_nonempty c Hc), Hr.
  rewrite bool_decide_eq_true_2 by discriminate. cbn [andb].
  rewrite (reset_conversation_delete h c Hc).
  rewrite (ask_question_clean api (delete c h) (question request_payload) c
             items Hc);
    rewrite ?lookup_delete_eq; cbn [default from_option id app];
    try assumption.
  now rewrite insert_delete_eq.
Qed.

(** Conversation c1 is reset and asked anew. *)
Lemma reset_request_starts_afresh_witness :
  ask_data_agent
    (Some (Scenario.api_streaming
             [StreamItem (SystemMessage [py "42"]) None] Exhausted))
    ({[ py "c1" := [UserMessage (py "hi")] ]} : gmap str (list message))
    (MkQuestionRequest (py "total?") (Some (py "c1")) false true true)
    (py "7f1c")
  = (py "c1", Some (Answered [SystemMessage [py "42"]]),
     <[ py "c1" := [UserMessage (py "total?")]
                   ++ [SystemMessage [py "42"]] ]>
       ({[ py "c1" := [UserMessage (py "hi")] ]}
          : gmap str (list message))).
Proof.
  exact (reset_request_starts_afresh
           (Scenario.api_streaming
              [StreamItem (SystemMessage [py "42"]) None] Exhausted)
           ({[ py "c1" := [UserMessage (py "hi")] ]}
              : gmap str (list message))
           (MkQuestionRequest (py "total?") (Some (py "c1")) false true true)
           (py "7f1c") (py "c1") [StreamItem (SystemMessage [py "42"]) None]
           eq_refl ltac:(discriminate) eq_refl eq_refl eq_refl
           ltac:(repeat constructor)).
Defined.

End AgentRequests.
